(** * The task lifecycle service of tascade (backend)

    A shallow embedding of the task service: the envelope it returns, the
    remote store it talks to (modelled as tables held in a [World]), the
    notification dispatcher it calls, and its operations [createTask],
    [fetchTaskByProjectId], [fetchTaskByid], [fetchTaskByUserId],
    [updateTask], [patch], [deleteTaskFromProject] and [updateTaskStatus].
    Every operation of the source is an [async] function whose body is one
    [try { ... } catch (error) { ... }]; here each is a total function from
    the world before the call to its answer and the world after it. *)

From Stdlib Require Import List String Ascii Bool Arith ZArith Lia.
From Stdlib Require Import DecimalString.
Import ListNotations.
Local Open Scope string_scope.
Local Open Scope Z_scope.

(** ** Strings *)

Module Js.

(** [String.prototype.toLowerCase] on strings of ASCII characters: the
    letters [A]..[Z] move to [a]..[z], every other character is left as it
    is.  On other strings the runtime folds every cased letter; the service
    below is stated over any lowercasing, and this one instantiates it at
    ASCII strings. *)
Definition lower_ascii (c : ascii) : ascii :=
  let n := nat_of_ascii c in
  if andb (Nat.leb 65 n) (Nat.leb n 90) then ascii_of_nat (n + 32) else c.

Fixpoint toLowerCase (s : string) : string :=
  match s with
  | EmptyString => EmptyString
  | String c r => String (lower_ascii c) (toLowerCase r)
  end.

(** Truthiness of a string value: only the empty string is falsy. *)
Definition truthy_string (s : string) : bool :=
  match s with
  | EmptyString => false
  | String _ _ => true
  end.

End Js.

(** ** Data model *)

(** A row of the Task table.  [projectId] and [assignedToId] are link
    columns; of the linked rows the service only ever reads [xata_id], so a
    link is kept as the identifier it points to, and a null link as [None]. *)
Record Task := mkTask {
  xata_id : string;
  description : string;
  status : string;
  dueDate : string;
  projectId : string;
  assignedToId : option string
}.

(** A row of the Project table: only its identifier is read here. *)
Record Project := mkProject { project_id : string }.

(** [NewTask], the argument of [createTask]. *)
Record NewTask := mkNewTask {
  n_description : string;
  n_status : string;
  n_dueDate : string;
  n_projectId : string;
  n_assignedToId : option string
}.

(** [UpdateTask], the body of [updateTask] and [patch]: every field is
    optional, an absent field is [None]. *)
Record UpdateTask := mkUpdateTask {
  u_description : option string;
  u_status : option string;
  u_dueDate : option string;
  u_assignedToId : option string
}.

(** The [details] field of an envelope is typed [any] in the source; these
    are the shapes the service puts there. *)
Inductive Details :=
| Text (s : string)
| Row (t : Task)
| Rows (l : list Task)
| Null.

(** The result envelope [{code, message, details}]. *)
Record Envelope := mkEnvelope {
  code : Z;
  message : string;
  details : Details
}.

(** What a [catch (error)] clause can receive: the RangeError of the
    runtime, or the error of a request the store client could not carry
    out, kept as the text its [toString()] gives. *)
Inductive Exn :=
| RangeError (msg : string)
| StoreError (text : string).

(** [error.toString()] *)
Definition Exn_toString (e : Exn) : string :=
  match e with
  | RangeError msg => "RangeError: " ++ msg
  | StoreError text => text
  end.

(** ** The world outside the service *)

(** What the service does to the world outside, in the order it does it. *)
Inductive Event :=
| Created (t : Task)
| Updated (id : string) (body : UpdateTask)
| Deleted (id : string)
| Notified (message recipient : string).

(** The remote store and the dispatcher.
    - [Project_table], [Task_table]: the rows, oldest first;
    - [next_id]: the counter the store draws fresh identifiers from;
    - [journal]: the writes accepted by the store and the calls received by
      the dispatcher, oldest first;
    - [budget]: [None] when the store answers every request; [Some n] when
      it answers [n] more awaited requests and rejects the following ones;
    - [fault_text]: what [toString()] gives for the error a rejected
      request raises. *)
Record World := mkWorld {
  Project_table : list Project;
  Task_table : list Task;
  next_id : nat;
  journal : list Event;
  budget : option nat;
  fault_text : string
}.

Definition set_Task_table (l : list Task) (w : World) : World :=
  mkWorld (Project_table w) l (next_id w) (journal w) (budget w) (fault_text w).

Definition set_next_id (n : nat) (w : World) : World :=
  mkWorld (Project_table w) (Task_table w) n (journal w) (budget w) (fault_text w).

Definition log (e : Event) (w : World) : World :=
  mkWorld (Project_table w) (Task_table w) (next_id w) (journal w ++ [e])
          (budget w) (fault_text w).

Definition set_budget (b : option nat) (w : World) : World :=
  mkWorld (Project_table w) (Task_table w) (next_id w) (journal w) b (fault_text w).

(** The store answers at least the next [n] awaited requests. *)
Definition answers (n : nat) (w : World) : bool :=
  match budget w with
  | None => true
  | Some k => Nat.leb n k
  end.

(** The dispatcher calls of a journal, as (message, recipient). *)
Fixpoint notifications (j : list Event) : list (string * string) :=
  match j with
  | [] => []
  | Notified m r :: rest => (m, r) :: notifications rest
  | _ :: rest => notifications rest
  end.

(** ** Awaited computations *)

Inductive Outcome (A : Type) :=
| Returned (a : A)
| Thrown (e : Exn).
Arguments Returned {A} a.
Arguments Thrown {A} e.

(** A computation reads and changes the world, and returns or throws. *)
Definition M (A : Type) : Type := World -> Outcome A * World.

Definition ret {A} (a : A) : M A := fun w => (Returned a, w).

Definition throw {A} (e : Exn) : M A := fun w => (Thrown e, w).

Definition bind {A B} (m : M A) (k : A -> M B) : M B :=
  fun w =>
    match m w with
    | (Returned a, w') => k a w'
    | (Thrown e, w') => (Thrown e, w')
    end.

Notation "x <- m ;; k" := (bind m (fun x => k))
  (at level 61, m at next level, right associativity).

(** [try { body } catch (error) { return handler(error) }]. *)
Definition try_catch {A} (body : M A) (handler : Exn -> A) : World -> A * World :=
  fun w =>
    match body w with
    | (Returned a, w') => (a, w')
    | (Thrown e, w') => (handler e, w')
    end.

(** The budget after one answered request. *)
Definition spend (w : World) : World :=
  set_budget (match budget w with
              | Some (S k) => Some k
              | b => b
              end) w.

(** One awaited request to the store: it is answered, or it raises. *)
Definition request {A} (f : World -> A * World) : M A :=
  fun w =>
    match budget w with
    | Some O => (Thrown (StoreError (fault_text w)), w)
    | _ => let (a, w') := f (spend w) in (Returned a, w')
    end.

(** ** The store client ([xata.db]) *)

Module Xata.

Definition has_id (id : string) (t : Task) : bool := String.eqb (xata_id t) id.

Definition has_description (d : string) (t : Task) : bool :=
  String.eqb (description t) d.

Definition has_project (p : string) (t : Task) : bool :=
  String.eqb (projectId t) p.

Definition has_assignee (u : string) (t : Task) : bool :=
  match assignedToId t with
  | Some v => String.eqb v u
  | None => false
  end.

(** [xata.db.Task.filter(f).getFirst()] *)
Definition Task_getFirst (f : Task -> bool) : M (option Task) :=
  request (fun w => (find f (Task_table w), w)).

(** [xata.db.Task.select([...]).filter(f).getAll()] *)
Definition Task_getAll (f : Task -> bool) : M (list Task) :=
  request (fun w => (filter f (Task_table w), w)).

(** [xata.db.Project.filter({ xata_id }).getFirst()] *)
Definition Project_getFirst (id : string) : M (option Project) :=
  request (fun w => (find (fun p => String.eqb (project_id p) id) (Project_table w), w)).

Definition fresh_id (w : World) : string :=
  "rec_" ++ NilEmpty.string_of_uint (Nat.to_uint (next_id w)).

(** [xata.db.Task.create(fields)]: the store assigns the identifier. *)
Definition Task_create (d s due p : string) (a : option string) : M Task :=
  request (fun w =>
    let t := mkTask (fresh_id w) d s due p a in
    (t, log (Created t)
          (set_next_id (S (next_id w)) (set_Task_table (Task_table w ++ [t]) w)))).

Definition or_keep {A} (o : option A) (old : A) : A :=
  match o with
  | Some v => v
  | None => old
  end.

(** The columns named in the body are overwritten, the others kept. *)
Definition apply_body (b : UpdateTask) (t : Task) : Task :=
  mkTask (xata_id t)
         (or_keep (u_description b) (description t))
         (or_keep (u_status b) (status t))
         (or_keep (u_dueDate b) (dueDate t))
         (projectId t)
         (match u_assignedToId b with
          | Some u => Some u
          | None => assignedToId t
          end).

Definition update_rows (id : string) (b : UpdateTask) (l : list Task) : list Task :=
  map (fun t => if has_id id t then apply_body b t else t) l.

(** [xata.db.Task.update(id, body)] and [record.update(body)]: the updated
    row, or null when no row carries the identifier. *)
Definition Task_update (id : string) (b : UpdateTask) : M (option Task) :=
  request (fun w =>
    match find (has_id id) (Task_table w) with
    | Some t =>
        (Some (apply_body b t),
         log (Updated id b) (set_Task_table (update_rows id b (Task_table w)) w))
    | None => (None, w)
    end).

(** [record.read(columns)]: the row as the store holds it now. *)
Definition Task_read (id : string) : M (option Task) :=
  request (fun w => (find (has_id id) (Task_table w), w)).

(** [xata.db.Task.delete(id)]: the deleted row, or null.  Identifiers
    are primary keys, so every row carrying the identifier goes. *)
Definition Task_delete (id : string) : M (option Task) :=
  request (fun w =>
    match find (has_id id) (Task_table w) with
    | Some t =>
        (Some t,
         log (Deleted id)
             (set_Task_table (filter (fun x => negb (has_id id x)) (Task_table w)) w))
    | None => (None, w)
    end).

(** A promise that was not awaited.  The variable holds the promise
    object, and an object is truthy whatever it later settles to. *)
Definition promise_truthy {A} (p : M A) : bool := true.

End Xata.


(** ** Runtime and sibling modules the service imports *)

(** Modelled from the spec: [isValidStatus] of [types/task.types], which
    the service imports and whose source is missing here.  The spec names
    the two recognised values, [in-progress] and [completed].  The service
    below is stated over any validator; this one instantiates it. *)
Definition isValidStatus_spec (s : string) : bool :=
  String.eqb s "in-progress" || String.eqb s "completed".

(** The [Date] of the runtime, for strings in the date-only form
    [YYYY-MM-DD] of the ECMAScript date-time string format.  A time value is
    a number of milliseconds since 1970-01-01T00:00:00Z.  Strings in any
    other form, and days past the end of their month, are read by each
    engine in its own way and are Invalid Dates here; the service below is
    stated over any parser, and this module instantiates it. *)
Module EcmaDate.

Definition digit_of (c : ascii) : option Z :=
  let n := Z.of_nat (nat_of_ascii c) in
  if (48 <=? n) && (n <=? 57) then Some (n - 48) else None.

Fixpoint number_of (s : string) (acc : Z) : option Z :=
  match s with
  | EmptyString => Some acc
  | String c r =>
      match digit_of c with
      | Some d => number_of r (10 * acc + d)
      | None => None
      end
  end.

Definition is_leap (y : Z) : bool :=
  (y mod 4 =? 0) && (negb (y mod 100 =? 0) || (y mod 400 =? 0)).

Definition days_in_month (y m : Z) : Z :=
  if m =? 2 then (if is_leap y then 29 else 28)
  else if (m =? 4) || (m =? 6) || (m =? 9) || (m =? 11) then 30
  else 31.

(** Days from 1970-01-01 to the given day of the proleptic Gregorian
    calendar. *)
Definition days_from_civil (y m d : Z) : Z :=
  let y' := if m <=? 2 then y - 1 else y in
  let era := y' / 400 in
  let yoe := y' - era * 400 in
  let mp := (m + 9) mod 12 in
  let doy := (153 * mp + 2) / 5 + d - 1 in
  let doe := yoe * 365 + yoe / 4 - yoe / 100 + doy in
  era * 146097 + doe - 719468.

Definition civil_from_days (n : Z) : Z * Z * Z :=
  let z := n + 719468 in
  let era := z / 146097 in
  let doe := z - era * 146097 in
  let yoe := (doe - doe / 1460 + doe / 36524 - doe / 146096) / 365 in
  let doy := doe - (365 * yoe + yoe / 4 - yoe / 100) in
  let mp := (5 * doy + 2) / 153 in
  let d := doy - (153 * mp + 2) / 5 + 1 in
  let m := if mp <? 10 then mp + 3 else mp - 9 in
  (if m <=? 2 then yoe + era * 400 + 1 else yoe + era * 400, m, d).

(** [new Date(s)]: the time value, or [None] for an Invalid Date. *)
Definition parse (s : string) : option Z :=
  if negb (Nat.eqb (String.length s) 10) then None
  else if negb (String.eqb (substring 4 1 s) "-" && String.eqb (substring 7 1 s) "-")
  then None
  else
    match number_of (substring 0 4 s) 0,
          number_of (substring 5 2 s) 0,
          number_of (substring 8 2 s) 0 with
    | Some y, Some m, Some d =>
        if (1 <=? m) && (m <=? 12) && (1 <=? d) && (d <=? days_in_month y m)
        then Some (days_from_civil y m d * 86400000)
        else None
    | _, _, _ => None
    end.

(** The last [width] decimal digits of [n]. *)
Fixpoint digits (width : nat) (n : Z) : string :=
  match width with
  | O => EmptyString
  | S k => digits k (n / 10) ++ String (ascii_of_nat (Z.to_nat (48 + n mod 10))) EmptyString
  end.

Definition year_string (y : Z) : string :=
  if (0 <=? y) && (y <=? 9999) then digits 4 y
  else (if y <? 0 then "-" else "+") ++ digits 6 (Z.abs y).

(** [toISOString] of a valid time value. *)
Definition toISO (t : Z) : string :=
  let ms := t mod 86400000 in
  let '(y, m, d) := civil_from_days (t / 86400000) in
  year_string y ++ "-" ++ digits 2 m ++ "-" ++ digits 2 d ++ "T"
    ++ digits 2 (ms / 3600000) ++ ":" ++ digits 2 (ms / 60000 mod 60) ++ ":"
    ++ digits 2 (ms / 1000 mod 60) ++ "." ++ digits 3 (ms mod 1000) ++ "Z".

End EcmaDate.

(** ** Sample stores and inputs

    Concrete values at which the properties below are evaluated. *)
Module Sample.

(** The task of the example in the documentation of [createTask]. *)
Definition report : NewTask :=
  mkNewTask "Complete the report" "in-progress" "2023-12-31" "project123"
            (Some "user456").

(** The same task, its description in another letter case. *)
Definition report_shouted : NewTask :=
  mkNewTask "COMPLETE THE REPORT" "completed" "2024-02-29" "project123" None.

(** The same task with a due date that is no date. *)
Definition undated : NewTask :=
  mkNewTask "Complete the report" "in-progress" "not-a-date" "project123"
            (Some "user456").

(** A task for a project the store does not hold. *)
Definition orphan : NewTask :=
  mkNewTask "Complete the report" "completed" "2023-12-31" "project999" None.

(** The row [createTask report] stores. *)
Definition row0 : Task :=
  mkTask "rec_0" "complete the report" "in-progress" "2023-12-31T00:00:00.000Z"
         "project123" (Some "user456").

(** [row0] after its description was updated to a capitalised one. *)
Definition row0_retitled : Task :=
  mkTask "rec_0" "Complete The Report" "in-progress" "2023-12-31T00:00:00.000Z"
         "project123" (Some "user456").

(** A body that changes the description and the due date. *)
Definition retitle : UpdateTask :=
  mkUpdateTask (Some "Complete The Report") None None None.

Definition redate : UpdateTask :=
  mkUpdateTask (Some "Complete The Report") None (Some "tomorrow") None.

(** A body whose status is not a recognised one. *)
Definition mark_done : UpdateTask :=
  mkUpdateTask None (Some "done") None None.

(** One project, no task, a store that answers every request. *)
Definition w0 : World :=
  mkWorld [mkProject "project123"] [] 0 [] None "fetch failed".

(** [w0] after [createTask report]. *)
Definition w1 : World :=
  mkWorld [mkProject "project123"] [row0] 1 [Created row0] None "fetch failed".

(** [w1] after [updateTask] with the body [retitle], delivered. *)
Definition w2 : World :=
  mkWorld [mkProject "project123"] [row0_retitled] 1
          [Created row0; Updated "rec_0" retitle;
           Notified "'Complete The Report' updated!" "user456"]
          None "fetch failed".

(** A dispatcher that accepts every message. *)
Definition delivered (message recipient : string) : Envelope :=
  mkEnvelope 201 "Notification created successfully" Null.

(** A dispatcher that fails on every message. *)
Definition failing (message recipient : string) : Envelope :=
  mkEnvelope 500 "Internal server error" (Text "Error: fetch failed").

End Sample.

(** Either an envelope, or the bare [error.toString()] that the catch
    clause of [fetchTaskByid] returns. *)
Inductive Reply :=
| Enveloped (e : Envelope)
| Bare (s : string).

(** ** The unfiltered listing *)

(** [xata.db.Task.select([...]).sort("xata_createdat", "desc").getAll()]:
    the table holds the rows oldest first, so the listing by creation time,
    newest first, is the table reversed. *)
Definition Task_getAll_newest_first : M (list Task) :=
  request (fun w => (rev (Task_table w), w)).

(** What [fetchTasks] returns: the rows themselves, or the bare
    [error.toString()] of its catch clause; neither is an envelope. *)
Inductive Listing :=
| Listed (tasks : list Task)
| Failed (s : string).

Definition fetchTasks : World -> Listing * World :=
  try_catch
    (tasks <- Task_getAll_newest_first ;;
     ret (Listed tasks))
    (fun error => Failed (Exn_toString error)).

(** ** The project controller

    The three request handlers for projects.  The project services they
    call are taken as they come: any computation over the world that
    returns or throws. *)
Module ProjectController.

(** What a handler reads of [req]: the errors the validation middleware
    collected ([validationResult(req)]), the body, and [req.params.id]. *)
Record Request (Body : Type) := mkRequest {
  validation_errors : list string;
  req_body : Body;
  params_id : string
}.
Arguments mkRequest {Body} _ _ _.
Arguments validation_errors {Body} _.
Arguments req_body {Body} _.
Arguments params_id {Body} _.

(** The argument of [resp.json]. *)
Inductive Payload (Projects : Type) :=
| Errors (errors : list string)
| MessageDetails (message : string) (details : Details)
| ErrorText (error : string)
| Value (projects : Projects).
Arguments Errors {Projects} _.
Arguments MessageDetails {Projects} _ _.
Arguments ErrorText {Projects} _.
Arguments Value {Projects} _.

(** What was sent: the status set by [resp.status] (200 when the handler
    sets none) and the payload. *)
Record Response (Projects : Type) := mkResponse {
  statusCode : Z;
  payload : Payload Projects
}.
Arguments mkResponse {Projects} _ _.
Arguments statusCode {Projects} _.
Arguments payload {Projects} _.

Section Handlers.

Variables Body Projects : Type.

(** [createProject], [fetchProjects] and [fetchProjectById] of
    [services/project.services]. *)
Variable createProject : Body -> M Envelope.
Variable fetchProjects : M Projects.
Variable fetchProjectById : string -> M Envelope.

(** [errors.isEmpty()] *)
Definition isEmpty (errors : list string) : bool :=
  match errors with
  | [] => true
  | _ :: _ => false
  end.

Definition server_error (error : Exn) : Response Projects :=
  mkResponse 500 (ErrorText (Exn_toString error)).

Definition create (req : Request Body) : World -> Response Projects * World :=
  try_catch
    (let errors := validation_errors req in
     if negb (isEmpty errors) then
       ret (mkResponse 400 (Errors errors))
     else
       r <- createProject (req_body req) ;;
       ret (mkResponse (code r) (MessageDetails (message r) (details r))))
    server_error.

Definition getProjects (req : Request Body) : World -> Response Projects * World :=
  try_catch
    (projects <- fetchProjects ;;
     ret (mkResponse 200 (Value projects)))
    server_error.

Definition getProjectById (req : Request Body) : World -> Response Projects * World :=
  try_catch
    (r <- fetchProjectById (params_id req) ;;
     ret (mkResponse (code r) (MessageDetails (message r) (details r))))
    server_error.

End Handlers.

End ProjectController.

(** ** Further sample stores and inputs *)
Module Scenario.

(** The report with a status that is not a recognised one. *)
Definition report_done : NewTask :=
  mkNewTask "Complete the report" "done" "2023-12-31" "project123" (Some "user456").

(** A task whose description no sample row has. *)
Definition flight : NewTask :=
  mkNewTask "Book the Flight" "completed" "2024-02-29" "project123" None.

(** A second row, assigned to nobody. *)
Definition row1 : Task :=
  mkTask "rec_1" "book the room" "in-progress" "2024-02-29T00:00:00.000Z"
         "project123" None.

(** A store holding the assigned row [Sample.row0] and the unassigned
    [row1]. *)
Definition two_rows : World :=
  mkWorld [mkProject "project123"] [Sample.row0; row1] 2
          [Created Sample.row0; Created row1] None "fetch failed".

(** [Sample.w1] with a store that rejects every request, that answers one
    request, and that answers two. *)
Definition unreachable : World :=
  mkWorld [mkProject "project123"] [Sample.row0] 1 [Created Sample.row0]
          (Some 0%nat) "TypeError: fetch failed".

Definition one_answer : World :=
  mkWorld [mkProject "project123"] [Sample.row0] 1 [Created Sample.row0]
          (Some 1%nat) "TypeError: fetch failed".

Definition two_answers : World :=
  mkWorld [mkProject "project123"] [Sample.row0] 1 [Created Sample.row0]
          (Some 2%nat) "TypeError: fetch failed".

(** A body whose status is the empty string. *)
Definition blank_status : UpdateTask :=
  mkUpdateTask None (Some EmptyString) None None.

(** A request that failed validation, and a project service that writes
    to the store when it is called. *)
Definition unnamed_project : ProjectController.Request string :=
  ProjectController.mkRequest ["name is required"] EmptyString EmptyString.

Definition createProject_sample (name : string) : M Envelope :=
  request (fun w =>
    (mkEnvelope 201 "Project created successfully" Null,
     mkWorld (Project_table w ++ [mkProject name]) (Task_table w) (next_id w)
             (journal w) (budget w) (fault_text w))).

End Scenario.

(** ** The service *)

Section TaskService.

(** [isValidStatus] of [types/task.types]. *)
Variable isValidStatus : string -> bool.

(** [String.prototype.toLowerCase] of the runtime. *)
Variable toLowerCase : string -> string.

(** Equality of two strings up to letter case. *)
Definition eq_ci (a b : string) : bool :=
  String.eqb (toLowerCase a) (toLowerCase b).

(** [new Date(s)] as a time value ([None]: Invalid Date), and the ISO text
    of a valid time value. *)
Variable Date_parse : string -> option Z.
Variable Date_format : Z -> string.

(** What the dispatcher answers to a message for a recipient. *)
Variable dispatcher : string -> string -> Envelope.

(** Modelled from the spec: [createNotification] of
    [notification.services], which the service imports and whose source is
    missing here.  It accepts a message and a recipient id and returns an
    envelope; it does not throw and does not touch the tasks. *)
Definition createNotification (message recipientId : string) : M Envelope :=
  fun w => (Returned (dispatcher message recipientId),
            log (Notified message recipientId) w).

(** [date.toISOString()]: a RangeError on an Invalid Date. *)
Definition toISOString (d : option Z) : M string :=
  match d with
  | Some t => ret (Date_format t)
  | None => throw (RangeError "Invalid time value")
  end.

(** The catch clause shared by the operations. *)
Definition internal_error (e : Exn) : Envelope :=
  mkEnvelope 500 "Internal server error" (Text (Exn_toString e)).

Definition status_hint : Details :=
  Text "status must be 'in-progress' or 'completed'!".

Definition createTask (task : NewTask) : World -> Envelope * World :=
  try_catch
    ((* the query is started and not awaited: [project] is the promise *)
     let project := Xata.Project_getFirst (n_projectId task) in
     if negb (Xata.promise_truthy project) then
       ret (mkEnvelope 404 "Error creating Task"
              (Text ("Project with id " ++ n_projectId task ++ " does not exist!")))
     else if negb (isValidStatus (n_status task)) then
       ret (mkEnvelope 400 "Invalid status!" status_hint)
     else
       existingTask <- Xata.Task_getFirst
                         (Xata.has_description (toLowerCase (n_description task))) ;;
       match existingTask with
       | Some _ =>
           ret (mkEnvelope 409 "Error creating Task" (Text "Tasks already exists."))
       | None =>
           let parsedDueDate := Date_parse (n_dueDate task) in
           iso <- toISOString parsedDueDate ;;
           result <- Xata.Task_create (toLowerCase (n_description task))
                                      (toLowerCase (n_status task))
                                      iso
                                      (n_projectId task)
                                      (n_assignedToId task) ;;
           ret (mkEnvelope 201 "Task created successfully" (Row result))
       end)
    internal_error.

Definition fetchTaskByProjectId (projectId : string) : World -> Envelope * World :=
  try_catch
    (tasks <- Xata.Task_getAll (Xata.has_project projectId) ;;
     if Nat.eqb (List.length tasks) 0 then
       ret (mkEnvelope 404 "Tasks not found!"
              (Text ("No tasks found for project with id " ++ projectId ++ "!")))
     else
       ret (mkEnvelope 200 "Tasks found!" (Rows tasks)))
    internal_error.

Definition fetchTaskByid (id : string) : World -> Reply * World :=
  try_catch
    (task <- Xata.Task_getFirst (Xata.has_id id) ;;
     match task with
     | None =>
         ret (Enveloped (mkEnvelope 404 "task not found!"
                           (Text ("task with id " ++ id ++ " not found!"))))
     | Some t =>
         ret (Enveloped (mkEnvelope 200 "task found!" (Row t)))
     end)
    (fun error => Bare (Exn_toString error)).

Definition fetchTaskByUserId (userId : string) : World -> Envelope * World :=
  try_catch
    (tasks <- Xata.Task_getAll (Xata.has_assignee userId) ;;
     ret (mkEnvelope 200 "Tasks found!" (Rows tasks)))
    internal_error.

(** [body.status && !isValidStatus(body.status)] *)
Definition status_rejected (body : UpdateTask) : bool :=
  match u_status body with
  | Some s => Js.truthy_string s && negb (isValidStatus s)
  | None => false
  end.

Definition updateTask (taskId : string) (body : UpdateTask) : World -> Envelope * World :=
  try_catch
    (task <- Xata.Task_getFirst (Xata.has_id taskId) ;;
     match task with
     | None =>
         ret (mkEnvelope 400 "Error updating task!"
                (Text ("Task with id " ++ taskId ++ " does not exist.")))
     | Some task =>
         if status_rejected body then
           ret (mkEnvelope 400 "Error updating task" status_hint)
         else
           result <- Xata.Task_update taskId body ;;
           match result with
           | None =>
               ret (mkEnvelope 400 "Error updating task!" (Text "Task was not updated!"))
           | Some result =>
               let notificationMessage := "'" ++ description result ++ "' updated!" in
               match assignedToId task with
               | Some assignee =>
                   notificationResult <- createNotification notificationMessage assignee ;;
                   if negb (code notificationResult =? 201) then
                     ret (mkEnvelope (code notificationResult)
                                     (message notificationResult)
                                     (details notificationResult))
                   else
                     ret (mkEnvelope 200 "Task updated successfully" (Row result))
               | None =>
                   ret (mkEnvelope 200 "Task updated successfully" (Row result))
               end
           end
     end)
    internal_error.

Definition option_details (o : option Task) : Details :=
  match o with
  | Some t => Row t
  | None => Null
  end.

Definition patch (taskId : string) (body : UpdateTask) : World -> Envelope * World :=
  try_catch
    (task <- Xata.Task_getFirst (Xata.has_id taskId) ;;
     match task with
     | None =>
         ret (mkEnvelope 400 "Error updating task!"
                (Text ("Task with id " ++ taskId ++ " does not exist.")))
     | Some task =>
         _ <- Xata.Task_update (xata_id task) body ;;
         result <- Xata.Task_read (xata_id task) ;;
         ret (mkEnvelope 200 "Task updated successfully" (option_details result))
     end)
    internal_error.

Definition deleteTaskFromProject (taskId : string) : World -> Envelope * World :=
  try_catch
    (task <- Xata.Task_getFirst (Xata.has_id taskId) ;;
     match task with
     | None =>
         ret (mkEnvelope 404 "Error deleting task"
                (Text ("Task with id " ++ taskId ++ " does not exist!")))
     | Some task =>
         result <- Xata.Task_delete taskId ;;
         match result with
         | None =>
             ret (mkEnvelope 400 "Error updating task!" (Text "Task was not updated!"))
         | Some result =>
             let notificationMessage := "'" ++ description result ++ "' deleted!" in
             match assignedToId task with
             | Some assignee =>
                 notificationResult <- createNotification notificationMessage assignee ;;
                 if negb (code notificationResult =? 201) then
                   ret (mkEnvelope (code notificationResult)
                                   (message notificationResult)
                                   (details notificationResult))
                 else
                   ret (mkEnvelope 200 "Task deleted successfully" (Row result))
             | None =>
                 ret (mkEnvelope 200 "Task deleted successfully" (Row result))
             end
         end
     end)
    internal_error.

Definition updateTaskStatus (taskId status : string) : World -> Envelope * World :=
  try_catch
    (if negb (isValidStatus status) then
       ret (mkEnvelope 400 "Invalid status!" status_hint)
     else
       task <- Xata.Task_getFirst (Xata.has_id taskId) ;;
       match task with
       | None =>
           ret (mkEnvelope 404 "Error updating task"
                  (Text ("Task with id " ++ taskId ++ " does not exist!")))
       | Some _ =>
           result <- Xata.Task_update taskId (mkUpdateTask None (Some status) None None) ;;
           ret (mkEnvelope 200 "Task status updated successfully" (option_details result))
       end)
    internal_error.

(** The row [t] with its status replaced, every other column kept. *)
Definition with_status (s : string) (t : Task) : Task :=
  mkTask (xata_id t) (description t) s (dueDate t) (projectId t) (assignedToId t).

(** The worlds [w] and [w'] hold the same rows, counter and journal; they
    may differ in what the store will still answer. *)
Definition same_data (w w' : World) : Prop :=
  Project_table w' = Project_table w
  /\ Task_table w' = Task_table w
  /\ next_id w' = next_id w
  /\ journal w' = journal w.

(** ** Properties *)

(** *** The store client while the budget lasts *)

Lemma answers_less (n : nat) (w : World) :
  answers (S n) w = true -> answers n w = true.
Proof.
  unfold answers. destruct (budget w) as [k|]; trivial.
  intros H. apply Nat.leb_le in H. apply Nat.leb_le. lia.
Qed.

Lemma answers_spend (n : nat) (w : World) :
  answers (S n) w = true -> answers n (spend w) = true.
Proof.
  unfold answers, spend. simpl. destruct (budget w) as [[|k]|]; trivial.
  discriminate.
Qed.

Lemma request_answered {A} (f : World -> A * World) (w : World) :
  answers 1 w = true ->
  request f w = (Returned (fst (f (spend w))), snd (f (spend w))).
Proof.
  unfold answers, request. destruct (budget w) as [[|k]|]; try discriminate;
    intros _; destruct (f (spend w)); reflexivity.
Qed.

Lemma request_rejected {A} (f : World -> A * World) (w : World) :
  budget w = Some O ->
  request f w = (Thrown (StoreError (fault_text w)), w).
Proof. unfold request. intros ->. reflexivity. Qed.

Create HintDb store.
#[local] Hint Resolve answers_less answers_spend : store.

Lemma Task_getFirst_answered (f : Task -> bool) (w : World) :
  answers 1 w = true ->
  Xata.Task_getFirst f w = (Returned (find f (Task_table w)), spend w).
Proof.
  intros H. unfold Xata.Task_getFirst. rewrite request_answered by exact H.
  reflexivity.
Qed.

Lemma Task_getAll_answered (f : Task -> bool) (w : World) :
  answers 1 w = true ->
  Xata.Task_getAll f w = (Returned (filter f (Task_table w)), spend w).
Proof.
  intros H. unfold Xata.Task_getAll. rewrite request_answered by exact H.
  reflexivity.
Qed.

Lemma Task_read_answered (id : string) (w : World) :
  answers 1 w = true ->
  Xata.Task_read id w = (Returned (find (Xata.has_id id) (Task_table w)), spend w).
Proof.
  intros H. unfold Xata.Task_read. rewrite request_answered by exact H.
  reflexivity.
Qed.

Lemma Task_create_answered (d s due p : string) (a : option string) (w : World) :
  answers 1 w = true ->
  Xata.Task_create d s due p a w =
    (Returned (mkTask (Xata.fresh_id w) d s due p a),
     log (Created (mkTask (Xata.fresh_id w) d s due p a))
         (set_next_id (S (next_id w))
            (set_Task_table (Task_table w ++ [mkTask (Xata.fresh_id w) d s due p a])
               (spend w)))).
Proof.
  intros H. unfold Xata.Task_create. rewrite request_answered by exact H.
  reflexivity.
Qed.

Lemma Task_update_answered (id : string) (b : UpdateTask) (t : Task) (w : World) :
  answers 1 w = true ->
  find (Xata.has_id id) (Task_table w) = Some t ->
  Xata.Task_update id b w =
    (Returned (Some (Xata.apply_body b t)),
     log (Updated id b)
         (set_Task_table (Xata.update_rows id b (Task_table w)) (spend w))).
Proof.
  intros H Hf. unfold Xata.Task_update. rewrite request_answered by exact H.
  change (Task_table (spend w)) with (Task_table w). rewrite Hf. reflexivity.
Qed.

Lemma Task_delete_answered (id : string) (t : Task) (w : World) :
  answers 1 w = true ->
  find (Xata.has_id id) (Task_table w) = Some t ->
  Xata.Task_delete id w =
    (Returned (Some t),
     log (Deleted id)
         (set_Task_table (filter (fun x => negb (Xata.has_id id x)) (Task_table w))
            (spend w))).
Proof.
  intros H Hf. unfold Xata.Task_delete. rewrite request_answered by exact H.
  change (Task_table (spend w)) with (Task_table w). rewrite Hf. reflexivity.
Qed.

(** *** Rows and identifiers *)

Lemma has_id_apply_body (id : string) (b : UpdateTask) (t : Task) :
  Xata.has_id id (Xata.apply_body b t) = Xata.has_id id t.
Proof. reflexivity. Qed.

Lemma find_update_rows (id : string) (b : UpdateTask) (l : list Task) (t : Task) :
  find (Xata.has_id id) l = Some t ->
  find (Xata.has_id id) (Xata.update_rows id b l) = Some (Xata.apply_body b t).
Proof.
  induction l as [|x l IH]; simpl; [discriminate|].
  destruct (Xata.has_id id x) eqn:E.
  - intros [= ->]. rewrite has_id_apply_body, E. reflexivity.
  - rewrite E. exact IH.
Qed.

Lemma find_after_delete (id : string) (l : list Task) :
  find (Xata.has_id id) (filter (fun x => negb (Xata.has_id id x)) l) = None.
Proof.
  induction l as [|x l IH]; simpl; trivial.
  destruct (Xata.has_id id x) eqn:E; simpl; trivial.
  rewrite E. exact IH.
Qed.

Lemma notifications_app (j k : list Event) :
  notifications (j ++ k) = (notifications j ++ notifications k)%list.
Proof.
  induction j as [|e j IH]; simpl; trivial.
  destruct e; simpl; rewrite IH; reflexivity.
Qed.

(** *** Letter case *)

(** A row whose description is the lowercased probe has the probe's
    description up to letter case. *)
Lemma has_description_eq_ci (d : string) (t : Task) :
  (forall s, toLowerCase (toLowerCase s) = toLowerCase s) ->
  Xata.has_description (toLowerCase d) t = true ->
  eq_ci (description t) d = true.
Proof.
  unfold Xata.has_description, eq_ci. intros Hi H.
  apply String.eqb_eq in H. rewrite H, Hi.
  apply String.eqb_refl.
Qed.

Lemma find_description_none (d : string) (l : list Task) :
  (forall s, toLowerCase (toLowerCase s) = toLowerCase s) ->
  (forall t, In t l -> eq_ci (description t) d = false) ->
  find (Xata.has_description (toLowerCase d)) l = None.
Proof.
  intros Hi H. destruct (find _ l) as [t|] eqn:E; trivial.
  apply find_some in E. destruct E as [Hin Hd].
  apply (has_description_eq_ci _ _ Hi) in Hd. rewrite (H t Hin) in Hd.
  discriminate.
Qed.

(** *** Lookups that find nothing *)

(** C7.  When the task identifier resolves to no row, [updateTask] and
    [patch] both answer with code 400, the code of a rejected argument, and
    not with 404; neither writes to the store nor calls the dispatcher. *)
Theorem updateTask_patch_missing_task_400
    (w : World) (taskId : string) (body : UpdateTask) :
  answers 1 w = true ->
  find (Xata.has_id taskId) (Task_table w) = None ->
  code (fst (updateTask taskId body w)) = 400
  /\ code (fst (patch taskId body w)) = 400
  /\ journal (snd (updateTask taskId body w)) = journal w
  /\ journal (snd (patch taskId body w)) = journal w.
Proof.
  intros Hb Hf. unfold updateTask, patch, try_catch, bind.
  rewrite Task_getFirst_answered by exact Hb. rewrite Hf.
  repeat split.
Qed.

(** C8.  The three filtered reads differ on an empty result: by project
    and by identifier the answer is 404, by assigned user it is 200 with an
    empty collection. *)
Theorem empty_result_policy
    (w : World) (projectId id userId : string) :
  answers 1 w = true ->
  (filter (Xata.has_project projectId) (Task_table w) = [] ->
     code (fst (fetchTaskByProjectId projectId w)) = 404)
  /\ (find (Xata.has_id id) (Task_table w) = None ->
        exists e, fst (fetchTaskByid id w) = Enveloped e /\ code e = 404)
  /\ (filter (Xata.has_assignee userId) (Task_table w) = [] ->
        code (fst (fetchTaskByUserId userId w)) = 200
        /\ details (fst (fetchTaskByUserId userId w)) = Rows []).
Proof.
  intros Hb. repeat split.
  - intros He. unfold fetchTaskByProjectId, try_catch, bind.
    rewrite Task_getAll_answered by exact Hb. rewrite He. reflexivity.
  - intros Hf. unfold fetchTaskByid, try_catch, bind.
    rewrite Task_getFirst_answered by exact Hb. rewrite Hf.
    eexists. split; reflexivity.
  - unfold fetchTaskByUserId, try_catch, bind.
    rewrite Task_getAll_answered by exact Hb. reflexivity.
  - unfold fetchTaskByUserId, try_catch, bind.
    rewrite Task_getAll_answered by exact Hb. simpl. congruence.
Qed.

(** *** Status transition *)

(** C4.  [updateTaskStatus] looks at the status before it asks the store
    anything: an invalid status gives 400 whatever the identifier and
    whatever the state of the store; a valid status on an identifier that
    resolves to no row gives 404; a valid status on an existing row gives
    200, replaces the status of that row and nothing else, and calls the
    dispatcher not at all. *)
Theorem updateTaskStatus_validates_first
    (w : World) (taskId status : string) :
  (isValidStatus status = false ->
     code (fst (updateTaskStatus taskId status w)) = 400
     /\ snd (updateTaskStatus taskId status w) = w)
  /\ (isValidStatus status = true ->
        answers 1 w = true ->
        find (Xata.has_id taskId) (Task_table w) = None ->
        code (fst (updateTaskStatus taskId status w)) = 404)
  /\ (isValidStatus status = true ->
        answers 2 w = true ->
        forall t, find (Xata.has_id taskId) (Task_table w) = Some t ->
        code (fst (updateTaskStatus taskId status w)) = 200
        /\ Task_table (snd (updateTaskStatus taskId status w)) =
             map (fun x => if Xata.has_id taskId x then with_status status x else x)
                 (Task_table w)
        /\ find (Xata.has_id taskId) (Task_table (snd (updateTaskStatus taskId status w))) =
             Some (with_status status t)
        /\ notifications (journal (snd (updateTaskStatus taskId status w))) =
             notifications (journal w)).
Proof.
  unfold updateTaskStatus, try_catch, bind. split; [|split].
  - intros Hv. rewrite Hv. split; reflexivity.
  - intros Hv Hb Hf. rewrite Hv. simpl.
    rewrite Task_getFirst_answered by exact Hb. rewrite Hf. reflexivity.
  - intros Hv Hb t Hf. rewrite Hv. simpl.
    rewrite Task_getFirst_answered by auto with store. rewrite Hf.
    rewrite (Task_update_answered _ _ t) by auto with store. simpl.
    split; [reflexivity|]. split; [reflexivity|]. split.
    + apply (find_update_rows taskId (mkUpdateTask None (Some status) None None)).
      exact Hf.
    + rewrite notifications_app. simpl. apply app_nil_r.
Qed.

(** *** Creation *)

Lemma answers_none_left (w : World) :
  answers 1 w = false -> budget w = Some O.
Proof.
  unfold answers. destruct (budget w) as [[|k]|]; trivial; discriminate.
Qed.

(** No path of [createTask] answers 404: the project lookup is not awaited,
    so the branch that would report the missing project is never taken.
    This holds in every world, whatever the store still answers. *)
Lemma createTask_never_404 (w : World) (task : NewTask) :
  code (fst (createTask task w)) <> 404.
Proof.
  unfold createTask, try_catch, bind, Xata.promise_truthy. simpl.
  destruct (isValidStatus (n_status task)); simpl; [|discriminate].
  destruct (Xata.Task_getFirst _ w) as [[[x|]|e] w1]; simpl; try discriminate.
  destruct (Date_parse (n_dueDate task)) as [t|]; simpl; [|discriminate].
  destruct (Xata.Task_create _ _ _ _ _ w1) as [[r|e] w2]; simpl; discriminate.
Qed.

(** C9.  A task that passes the status and uniqueness checks and whose due
    date is an Invalid Date is answered with code 500 and the message of the
    catch clause, and the store is left as it was; when the uniqueness query
    was answered, the error reported is the RangeError of [toISOString]. *)
Theorem createTask_unparsable_dueDate_500 (w : World) (task : NewTask) :
  isValidStatus (n_status task) = true ->
  find (Xata.has_description (toLowerCase (n_description task))) (Task_table w) = None ->
  Date_parse (n_dueDate task) = None ->
  code (fst (createTask task w)) = 500
  /\ message (fst (createTask task w)) = "Internal server error"
  /\ Task_table (snd (createTask task w)) = Task_table w
  /\ journal (snd (createTask task w)) = journal w
  /\ (answers 1 w = true ->
        details (fst (createTask task w)) = Text "RangeError: Invalid time value").
Proof.
  intros Hv Hu Hd. unfold createTask, try_catch, bind, Xata.promise_truthy.
  simpl. rewrite Hv. simpl.
  destruct (answers 1 w) eqn:Hb.
  - rewrite Task_getFirst_answered by exact Hb. rewrite Hu, Hd. simpl.
    repeat split.
  - unfold Xata.Task_getFirst.
    rewrite request_rejected by (apply answers_none_left; exact Hb). simpl.
    repeat split. discriminate.
Qed.

(** C5, with the condition on the due date that the code needs.  When the
    project exists, the status is valid, no stored description equals the
    new one up to letter case, and the due date is a valid date, the answer
    is 201 and the row appended to the Task table carries the description
    lowercased, the status lowercased and the due date in ISO form.  The
    lowercasing is any function that leaves its own results unchanged, as
    the one of the runtime does. *)
Theorem createTask_persists_canonical (w : World) (task : NewTask) (t : Z) :
  (forall s, toLowerCase (toLowerCase s) = toLowerCase s) ->
  answers 2 w = true ->
  (exists p, In p (Project_table w) /\ project_id p = n_projectId task) ->
  isValidStatus (n_status task) = true ->
  (forall x, In x (Task_table w) ->
             eq_ci (description x) (n_description task) = false) ->
  Date_parse (n_dueDate task) = Some t ->
  fst (createTask task w) =
    mkEnvelope 201 "Task created successfully"
      (Row (mkTask (Xata.fresh_id w)
                   (toLowerCase (n_description task))
                   (toLowerCase (n_status task))
                   (Date_format t)
                   (n_projectId task)
                   (n_assignedToId task)))
  /\ Task_table (snd (createTask task w)) =
       (Task_table w ++
        [mkTask (Xata.fresh_id w)
                (toLowerCase (n_description task))
                (toLowerCase (n_status task))
                (Date_format t)
                (n_projectId task)
                (n_assignedToId task)])%list.
Proof.
  intros Hi Hb _ Hv Hu Hd.
  unfold createTask, try_catch, bind, Xata.promise_truthy.
  simpl. rewrite Hv. simpl.
  rewrite Task_getFirst_answered by auto with store.
  rewrite (find_description_none _ _ Hi Hu), Hd. simpl.
  rewrite Task_create_answered by auto with store.
  split; reflexivity.
Qed.

(** C6, for a stored description that is in lowercase (one that
    lowercasing leaves unchanged, as [createTask] stores them) and a status
    that passes the check.  When such a stored row has, up to letter case,
    the description of the new task, the answer is 409 and nothing is
    written.  The lowercasing is any function. *)
Theorem createTask_conflict_on_lowercase_rows (w : World) (task : NewTask) (x : Task) :
  answers 1 w = true ->
  isValidStatus (n_status task) = true ->
  In x (Task_table w) ->
  eq_ci (description x) (n_description task) = true ->
  toLowerCase (description x) = description x ->
  code (fst (createTask task w)) = 409
  /\ Task_table (snd (createTask task w)) = Task_table w
  /\ journal (snd (createTask task w)) = journal w.
Proof.
  intros Hb Hv Hin Hci Hl. unfold createTask, try_catch, bind, Xata.promise_truthy.
  simpl. rewrite Hv. simpl.
  rewrite Task_getFirst_answered by exact Hb.
  destruct (find _ (Task_table w)) as [y|] eqn:E.
  - repeat split.
  - exfalso. apply (find_none _ _ E) in Hin.
    unfold Xata.has_description in Hin. unfold eq_ci in Hci.
    apply String.eqb_eq in Hci. rewrite Hl in Hci. rewrite Hci in Hin.
    rewrite String.eqb_refl in Hin. discriminate.
Qed.

(** *** Writes followed by a notification *)

(** C2.  [updateTask] on an existing row assigned to a user, for a call
    that reaches the write (the body passes the status check and the store
    answers): the store takes the update, then the
    dispatcher receives one call, with the message made of the updated row's
    description between quotes followed by [updated!], for the user the row
    was assigned to before the update.  When the dispatcher's code is not
    201, its code, message and details are the answer of [updateTask]; the
    updated row stays in the store. *)
Theorem updateTask_notifies_and_propagates
    (w : World) (taskId : string) (body : UpdateTask) (task : Task) (assignee : string) :
  answers 2 w = true ->
  find (Xata.has_id taskId) (Task_table w) = Some task ->
  assignedToId task = Some assignee ->
  status_rejected body = false ->
  let note := "'" ++ description (Xata.apply_body body task) ++ "' updated!" in
  let reply := dispatcher note assignee in
  journal (snd (updateTask taskId body w)) =
    (journal w ++ [Updated taskId body; Notified note assignee])%list
  /\ Task_table (snd (updateTask taskId body w)) =
       Xata.update_rows taskId body (Task_table w)
  /\ find (Xata.has_id taskId) (Task_table (snd (updateTask taskId body w))) =
       Some (Xata.apply_body body task)
  /\ (code reply <> 201 ->
        fst (updateTask taskId body w) =
          mkEnvelope (code reply) (message reply) (details reply))
  /\ (code reply = 201 -> code (fst (updateTask taskId body w)) = 200).
Proof.
  intros Hb Hf Ha Hs note reply. unfold updateTask, try_catch, bind.
  rewrite Task_getFirst_answered by auto with store. rewrite Hf, Hs.
  rewrite (Task_update_answered _ _ task) by auto with store.
  rewrite Ha. unfold createNotification. fold note. fold reply.
  destruct (code reply =? 201) eqn:Ec; simpl.
  - apply Z.eqb_eq in Ec.
    split; [rewrite <- app_assoc; reflexivity|]. split; [reflexivity|].
    split; [apply find_update_rows; exact Hf|]. split; [contradiction|trivial].
  - apply Z.eqb_neq in Ec.
    split; [rewrite <- app_assoc; reflexivity|]. split; [reflexivity|].
    split; [apply find_update_rows; exact Hf|]. split; [trivial|contradiction].
Qed.

(** C3.  [deleteTaskFromProject] on an existing row assigned to a user: the
    store deletes the row, then the dispatcher receives exactly one call,
    with the message made of the row's description between quotes followed
    by [deleted!], for the assigned user.  When the dispatcher's code is not
    201, its code, message and details are the answer, so a dispatcher code
    of 500 gives an answer of code 500; the row is gone from the store all
    the same. *)
Theorem deleteTaskFromProject_notifies_and_propagates
    (w : World) (taskId : string) (task : Task) (assignee : string) :
  answers 2 w = true ->
  find (Xata.has_id taskId) (Task_table w) = Some task ->
  assignedToId task = Some assignee ->
  let note := "'" ++ description task ++ "' deleted!" in
  let reply := dispatcher note assignee in
  journal (snd (deleteTaskFromProject taskId w)) =
    (journal w ++ [Deleted taskId; Notified note assignee])%list
  /\ find (Xata.has_id taskId) (Task_table (snd (deleteTaskFromProject taskId w))) = None
  /\ (code reply <> 201 ->
        fst (deleteTaskFromProject taskId w) =
          mkEnvelope (code reply) (message reply) (details reply))
  /\ (code reply = 500 -> code (fst (deleteTaskFromProject taskId w)) = 500)
  /\ (code reply = 201 -> code (fst (deleteTaskFromProject taskId w)) = 200).
Proof.
  intros Hb Hf Ha note reply. unfold deleteTaskFromProject, try_catch, bind.
  rewrite Task_getFirst_answered by auto with store. rewrite Hf.
  rewrite (Task_delete_answered _ task) by auto with store.
  rewrite Ha. unfold createNotification. fold note. fold reply.
  destruct (code reply =? 201) eqn:Ec; simpl.
  - apply Z.eqb_eq in Ec.
    split; [rewrite <- app_assoc; reflexivity|]. split; [apply find_after_delete|].
    split; [contradiction|]. split; [lia|trivial].
  - apply Z.eqb_neq in Ec.
    split; [rewrite <- app_assoc; reflexivity|]. split; [apply find_after_delete|].
    split; [trivial|]. split; [trivial|contradiction].
Qed.

(** *** What an update stores *)

(** C10.  [updateTask] (once the body has passed the status check) and
    [patch] hand the body to the store as the caller gave it: the row found
    under the identifier afterwards carries the description and the due date
    of the body unchanged, so a description that is not in lowercase is
    stored as such; [patch] answers 200, and so does [updateTask] when the
    row is assigned to nobody. *)
Theorem updateTask_patch_store_body_verbatim
    (w : World) (taskId : string) (body : UpdateTask) (task : Task) :
  answers 3 w = true ->
  find (Xata.has_id taskId) (Task_table w) = Some task ->
  (status_rejected body = false ->
     exists row,
       find (Xata.has_id taskId) (Task_table (snd (updateTask taskId body w))) = Some row
       /\ (forall d, u_description body = Some d -> description row = d)
       /\ (forall d, u_dueDate body = Some d -> dueDate row = d)
       /\ (forall d, u_description body = Some d -> toLowerCase d <> d ->
            toLowerCase (description row) <> description row)
       /\ (assignedToId task = None -> code (fst (updateTask taskId body w)) = 200))
  /\ (exists row,
       find (Xata.has_id taskId) (Task_table (snd (patch taskId body w))) = Some row
       /\ (forall d, u_description body = Some d -> description row = d)
       /\ (forall d, u_dueDate body = Some d -> dueDate row = d)
       /\ (forall d, u_description body = Some d -> toLowerCase d <> d ->
            toLowerCase (description row) <> description row)
       /\ fst (patch taskId body w) =
            mkEnvelope 200 "Task updated successfully" (Row row)).
Proof.
  intros Hb Hf. split.
  - intros Hs. exists (Xata.apply_body body task).
    unfold updateTask, try_catch, bind.
    rewrite Task_getFirst_answered by auto with store. rewrite Hf, Hs.
    rewrite (Task_update_answered _ _ task) by auto with store.
    split.
    + destruct (assignedToId task) as [u|]; simpl;
        [destruct (code (dispatcher _ u) =? 201); simpl|];
        apply find_update_rows; exact Hf.
    + split; [intros d Hd; simpl; rewrite Hd; reflexivity|].
      split; [intros d Hd; simpl; rewrite Hd; reflexivity|].
      split; [intros d Hd Hn; simpl; rewrite Hd; exact Hn|].
      intros Ha. rewrite Ha. reflexivity.
  - exists (Xata.apply_body body task).
    assert (Hid : xata_id task = taskId).
    { apply find_some in Hf. destruct Hf as [_ Hid]. apply String.eqb_eq. exact Hid. }
    unfold patch, try_catch, bind.
    rewrite Task_getFirst_answered by auto with store. rewrite Hf, Hid.
    rewrite (Task_update_answered _ _ task) by auto with store.
    rewrite Task_read_answered
      by (change (answers 1 (spend (spend w)) = true); auto with store).
    simpl. rewrite (find_update_rows _ _ _ _ Hf).
    split; [reflexivity|].
    split; [intros d Hd; simpl; rewrite Hd; reflexivity|].
    split; [intros d Hd; simpl; rewrite Hd; reflexivity|].
    split; [intros d Hd Hn; simpl; rewrite Hd; exact Hn|reflexivity].
Qed.

(** *** The store client when the budget is spent or the row is missing *)

Lemma Task_getFirst_rejected (f : Task -> bool) (w : World) :
  answers 1 w = false ->
  Xata.Task_getFirst f w = (Thrown (StoreError (fault_text w)), w).
Proof.
  intros H. unfold Xata.Task_getFirst.
  apply request_rejected, answers_none_left, H.
Qed.

Lemma Task_getAll_rejected (f : Task -> bool) (w : World) :
  answers 1 w = false ->
  Xata.Task_getAll f w = (Thrown (StoreError (fault_text w)), w).
Proof.
  intros H. unfold Xata.Task_getAll.
  apply request_rejected, answers_none_left, H.
Qed.

Lemma Task_read_rejected (id : string) (w : World) :
  answers 1 w = false ->
  Xata.Task_read id w = (Thrown (StoreError (fault_text w)), w).
Proof.
  intros H. unfold Xata.Task_read.
  apply request_rejected, answers_none_left, H.
Qed.

Lemma Task_create_rejected (d s due p : string) (a : option string) (w : World) :
  answers 1 w = false ->
  Xata.Task_create d s due p a w = (Thrown (StoreError (fault_text w)), w).
Proof.
  intros H. unfold Xata.Task_create.
  apply request_rejected, answers_none_left, H.
Qed.

Lemma Task_update_rejected (id : string) (b : UpdateTask) (w : World) :
  answers 1 w = false ->
  Xata.Task_update id b w = (Thrown (StoreError (fault_text w)), w).
Proof.
  intros H. unfold Xata.Task_update.
  apply request_rejected, answers_none_left, H.
Qed.

Lemma Task_delete_rejected (id : string) (w : World) :
  answers 1 w = false ->
  Xata.Task_delete id w = (Thrown (StoreError (fault_text w)), w).
Proof.
  intros H. unfold Xata.Task_delete.
  apply request_rejected, answers_none_left, H.
Qed.

Lemma Task_getAll_newest_first_answered (w : World) :
  answers 1 w = true ->
  Task_getAll_newest_first w = (Returned (rev (Task_table w)), spend w).
Proof.
  intros H. unfold Task_getAll_newest_first.
  rewrite request_answered by exact H. reflexivity.
Qed.

Lemma Task_getAll_newest_first_rejected (w : World) :
  answers 1 w = false ->
  Task_getAll_newest_first w = (Thrown (StoreError (fault_text w)), w).
Proof.
  intros H. unfold Task_getAll_newest_first.
  apply request_rejected, answers_none_left, H.
Qed.

(** *** What [createTask] does to the store *)

(** Either nothing is written and the answer is not 201, or the checks
    passed and exactly the canonical row is appended and reported. *)
Lemma createTask_effect (w : World) (task : NewTask) :
  (Task_table (snd (createTask task w)) = Task_table w
   /\ journal (snd (createTask task w)) = journal w
   /\ code (fst (createTask task w)) <> 201)
  \/ (isValidStatus (n_status task) = true
      /\ find (Xata.has_description (toLowerCase (n_description task)))
              (Task_table w) = None
      /\ exists row,
           description row = toLowerCase (n_description task)
           /\ status row = toLowerCase (n_status task)
           /\ xata_id row = Xata.fresh_id w
           /\ Task_table (snd (createTask task w)) = (Task_table w ++ [row])%list
           /\ journal (snd (createTask task w)) = (journal w ++ [Created row])%list
           /\ fst (createTask task w) =
                mkEnvelope 201 "Task created successfully" (Row row)).
Proof.
  unfold createTask, try_catch, bind, Xata.promise_truthy. simpl.
  destruct (isValidStatus (n_status task)) eqn:Hv; simpl;
    [|left; repeat split; discriminate].
  destruct (answers 1 w) eqn:Hb;
    [rewrite Task_getFirst_answered by exact Hb
    |rewrite Task_getFirst_rejected by exact Hb; left; repeat split; discriminate].
  destruct (find _ (Task_table w)) as [x|] eqn:Hf;
    [left; repeat split; discriminate|].
  destruct (Date_parse (n_dueDate task)) as [t|]; simpl;
    [|left; repeat split; discriminate].
  destruct (answers 1 (spend w)) eqn:Hb2;
    [rewrite Task_create_answered by exact Hb2
    |rewrite Task_create_rejected by exact Hb2; left; repeat split; discriminate].
  right. split; [reflexivity|]. split; [reflexivity|].
  exists (mkTask (Xata.fresh_id w) (toLowerCase (n_description task))
                 (toLowerCase (n_status task)) (Date_format t)
                 (n_projectId task) (n_assignedToId task)).
  repeat split.
Qed.

(** X1.  A status the validator refuses is answered with 400 before the
    store is asked anything: whatever the project, the description and the
    state of the store, and the world is left exactly as it was. *)
Theorem createTask_invalid_status_400 (w : World) (task : NewTask) :
  isValidStatus (n_status task) = false ->
  fst (createTask task w) = mkEnvelope 400 "Invalid status!" status_hint
  /\ snd (createTask task w) = w.
Proof.
  intros Hv. unfold createTask, try_catch, bind, Xata.promise_truthy. simpl.
  rewrite Hv. split; reflexivity.
Qed.

(** X2.  [createTask] writes a row exactly when it answers 201: then the
    table gains one row at its end, the one reported in the answer, and the
    journal one creation; with any other answer table and journal are
    unchanged.  This holds in every state of the store. *)
Theorem createTask_writes_iff_201 (w : World) (task : NewTask) :
  (code (fst (createTask task w)) = 201
   /\ exists row,
        details (fst (createTask task w)) = Row row
        /\ Task_table (snd (createTask task w)) = (Task_table w ++ [row])%list
        /\ journal (snd (createTask task w)) = (journal w ++ [Created row])%list)
  \/ (code (fst (createTask task w)) <> 201
      /\ Task_table (snd (createTask task w)) = Task_table w
      /\ journal (snd (createTask task w)) = journal w).
Proof.
  destruct (createTask_effect w task)
    as [(Ht & Hj & Hc)|(_ & _ & row & _ & _ & _ & Ht & Hj & He)].
  - right. repeat split; assumption.
  - left. rewrite He. split; [reflexivity|].
    exists row. repeat split; assumption.
Qed.

(** X3.  [createTask] keeps the descriptions of the table in lowercase: if
    lowercasing leaves every stored description unchanged before the call,
    it leaves every stored description unchanged after it, whatever the
    call answers.  The lowercasing is any function that leaves its own
    results unchanged, as the one of the runtime does. *)
Theorem createTask_keeps_descriptions_lowercase (w : World) (task : NewTask) :
  (forall s, toLowerCase (toLowerCase s) = toLowerCase s) ->
  (forall t, In t (Task_table w) -> toLowerCase (description t) = description t) ->
  forall t, In t (Task_table (snd (createTask task w))) ->
            toLowerCase (description t) = description t.
Proof.
  intros Hi Hl t.
  destruct (createTask_effect w task)
    as [(Ht & _)|(_ & _ & row & Hd & _ & _ & Ht & _)]; rewrite Ht.
  - apply Hl.
  - intros Hin. apply in_app_or in Hin. destruct Hin as [Hin|[<-|[]]].
    + apply Hl, Hin.
    + rewrite Hd. apply Hi.
Qed.


(** A row whose description is the lowercased probe makes [createTask]
    answer 409 and write nothing. *)
Lemma createTask_conflict_exact (w : World) (task : NewTask) (x : Task) :
  answers 1 w = true ->
  isValidStatus (n_status task) = true ->
  In x (Task_table w) ->
  description x = toLowerCase (n_description task) ->
  fst (createTask task w) =
    mkEnvelope 409 "Error creating Task" (Text "Tasks already exists.")
  /\ Task_table (snd (createTask task w)) = Task_table w
  /\ journal (snd (createTask task w)) = journal w.
Proof.
  intros Hb Hv Hin Hd. unfold createTask, try_catch, bind, Xata.promise_truthy.
  simpl. rewrite Hv. simpl. rewrite Task_getFirst_answered by exact Hb.
  destruct (find _ (Task_table w)) as [y|] eqn:E; [repeat split|].
  apply (find_none _ _ E) in Hin. unfold Xata.has_description in Hin.
  rewrite Hd, String.eqb_refl in Hin. discriminate.
Qed.

(** X5.  Creating twice conflicts: after a [createTask] answered with 201,
    a [createTask] whose description equals the first one up to letter case
    (and whose status is valid) is answered with 409 and writes nothing, as
    long as the store answers its uniqueness query.  The lowercasing is any
    function: the second probe is the description the first call stored. *)
Theorem createTask_twice_conflicts (w : World) (task again : NewTask) :
  code (fst (createTask task w)) = 201 ->
  answers 1 (snd (createTask task w)) = true ->
  isValidStatus (n_status again) = true ->
  eq_ci (n_description again) (n_description task) = true ->
  code (fst (createTask again (snd (createTask task w)))) = 409
  /\ Task_table (snd (createTask again (snd (createTask task w)))) =
       Task_table (snd (createTask task w)).
Proof.
  intros Hc Hb Hv Hci.
  destruct (createTask_effect w task)
    as [(_ & _ & Hn)|(_ & _ & row & Hd & _ & _ & Ht & _)]; [contradiction|].
  destruct (createTask_conflict_exact (snd (createTask task w)) again row Hb Hv)
    as (He & Hs & _).
  - rewrite Ht. apply in_or_app. right. left. reflexivity.
  - rewrite Hd. symmetry. apply String.eqb_eq. exact Hci.
  - rewrite He. split; [reflexivity|exact Hs].
Qed.

(** *** What the mutators do to the store *)

Lemma updateTask_effect (w : World) (taskId : string) (body : UpdateTask) :
  (Task_table (snd (updateTask taskId body w)) = Task_table w
   /\ journal (snd (updateTask taskId body w)) = journal w
   /\ (code (fst (updateTask taskId body w)) = 400
       \/ code (fst (updateTask taskId body w)) = 500))
  \/ (exists task,
        find (Xata.has_id taskId) (Task_table w) = Some task
        /\ status_rejected body = false
        /\ Task_table (snd (updateTask taskId body w)) =
             Xata.update_rows taskId body (Task_table w)
        /\ ((assignedToId task = None
             /\ journal (snd (updateTask taskId body w)) =
                  (journal w ++ [Updated taskId body])%list
             /\ fst (updateTask taskId body w) =
                  mkEnvelope 200 "Task updated successfully"
                             (Row (Xata.apply_body body task)))
            \/ (exists u,
                  assignedToId task = Some u
                  /\ journal (snd (updateTask taskId body w)) =
                       (journal w ++
                        [Updated taskId body;
                         Notified ("'" ++ description (Xata.apply_body body task)
                                       ++ "' updated!") u])%list))).
Proof.
  unfold updateTask, try_catch, bind.
  destruct (answers 1 w) eqn:Hb;
    [rewrite Task_getFirst_answered by exact Hb
    |rewrite Task_getFirst_rejected by exact Hb; left; repeat split; right; reflexivity].
  destruct (find _ (Task_table w)) as [task|] eqn:Hf;
    [|left; repeat split; left; reflexivity].
  destruct (status_rejected body) eqn:Hs;
    [left; repeat split; left; reflexivity|].
  destruct (answers 1 (spend w)) eqn:Hb2;
    [rewrite (Task_update_answered taskId body task (spend w) Hb2 Hf)
    |rewrite Task_update_rejected by exact Hb2; left; repeat split; right; reflexivity].
  right. exists task. split; [reflexivity|]. split; [reflexivity|].
  destruct (assignedToId task) as [u|] eqn:Ha.
  - unfold createNotification.
    destruct (code (dispatcher _ u) =? 201); simpl;
      (split; [reflexivity|]); right; exists u;
      (split; [reflexivity|]); rewrite <- app_assoc; reflexivity.
  - simpl. split; [reflexivity|]. left. repeat split.
Qed.

Lemma deleteTaskFromProject_effect (w : World) (taskId : string) :
  (Task_table (snd (deleteTaskFromProject taskId w)) = Task_table w
   /\ journal (snd (deleteTaskFromProject taskId w)) = journal w
   /\ (code (fst (deleteTaskFromProject taskId w)) = 404
       \/ code (fst (deleteTaskFromProject taskId w)) = 500))
  \/ (exists task,
        find (Xata.has_id taskId) (Task_table w) = Some task
        /\ Task_table (snd (deleteTaskFromProject taskId w)) =
             filter (fun x => negb (Xata.has_id taskId x)) (Task_table w)
        /\ ((assignedToId task = None
             /\ journal (snd (deleteTaskFromProject taskId w)) =
                  (journal w ++ [Deleted taskId])%list
             /\ fst (deleteTaskFromProject taskId w) =
                  mkEnvelope 200 "Task deleted successfully" (Row task))
            \/ (exists u,
                  assignedToId task = Some u
                  /\ journal (snd (deleteTaskFromProject taskId w)) =
                       (journal w ++
                        [Deleted taskId;
                         Notified ("'" ++ description task ++ "' deleted!") u])%list))).
Proof.
  unfold deleteTaskFromProject, try_catch, bind.
  destruct (answers 1 w) eqn:Hb;
    [rewrite Task_getFirst_answered by exact Hb
    |rewrite Task_getFirst_rejected by exact Hb; left; repeat split; right; reflexivity].
  destruct (find _ (Task_table w)) as [task|] eqn:Hf;
    [|left; repeat split; left; reflexivity].
  destruct (answers 1 (spend w)) eqn:Hb2;
    [rewrite (Task_delete_answered taskId task (spend w) Hb2 Hf)
    |rewrite Task_delete_rejected by exact Hb2; left; repeat split; right; reflexivity].
  right. exists task. split; [reflexivity|].
  destruct (assignedToId task) as [u|] eqn:Ha.
  - unfold createNotification.
    destruct (code (dispatcher _ u) =? 201); simpl;
      (split; [reflexivity|]); right; exists u;
      (split; [reflexivity|]); rewrite <- app_assoc; reflexivity.
  - simpl. split; [reflexivity|]. left. repeat split.
Qed.

Lemma patch_effect (w : World) (taskId : string) (body : UpdateTask) :
  (Task_table (snd (patch taskId body w)) = Task_table w
   /\ journal (snd (patch taskId body w)) = journal w)
  \/ (exists task,
        find (Xata.has_id taskId) (Task_table w) = Some task
        /\ Task_table (snd (patch taskId body w)) =
             Xata.update_rows taskId body (Task_table w)
        /\ journal (snd (patch taskId body w)) =
             (journal w ++ [Updated taskId body])%list).
Proof.
  unfold patch, try_catch, bind.
  destruct (answers 1 w) eqn:Hb;
    [rewrite Task_getFirst_answered by exact Hb
    |rewrite Task_getFirst_rejected by exact Hb; left; split; reflexivity].
  destruct (find _ (Task_table w)) as [task|] eqn:Hf;
    [|left; split; reflexivity].
  assert (Hid : xata_id task = taskId).
  { apply find_some in Hf. destruct Hf as [_ Hid]. apply String.eqb_eq, Hid. }
  rewrite Hid.
  destruct (answers 1 (spend w)) eqn:Hb2;
    [rewrite (Task_update_answered taskId body task (spend w) Hb2 Hf)
    |rewrite Task_update_rejected by exact Hb2; left; split; reflexivity].
  right. exists task. split; [reflexivity|].
  match goal with
  | |- context [Xata.Task_read taskId ?w1] =>
      destruct (answers 1 w1) eqn:Hb3;
        [rewrite Task_read_answered by exact Hb3
        |rewrite Task_read_rejected by exact Hb3]
  end; split; reflexivity.
Qed.

Lemma updateTaskStatus_effect (w : World) (taskId status : string) :
  (Task_table (snd (updateTaskStatus taskId status w)) = Task_table w
   /\ journal (snd (updateTaskStatus taskId status w)) = journal w)
  \/ (isValidStatus status = true
      /\ Task_table (snd (updateTaskStatus taskId status w)) =
           map (fun x => if Xata.has_id taskId x then with_status status x else x)
               (Task_table w)
      /\ journal (snd (updateTaskStatus taskId status w)) =
           (journal w ++
            [Updated taskId (mkUpdateTask None (Some status) None None)])%list).
Proof.
  unfold updateTaskStatus, try_catch, bind.
  destruct (isValidStatus status) eqn:Hv; simpl; [|left; split; reflexivity].
  destruct (answers 1 w) eqn:Hb;
    [rewrite Task_getFirst_answered by exact Hb
    |rewrite Task_getFirst_rejected by exact Hb; left; split; reflexivity].
  destruct (find _ (Task_table w)) as [task|] eqn:Hf;
    [|left; split; reflexivity].
  destruct (answers 1 (spend w)) eqn:Hb2;
    [rewrite (Task_update_answered taskId _ task (spend w) Hb2 Hf)
    |rewrite Task_update_rejected by exact Hb2; left; split; reflexivity].
  right. repeat split.
Qed.

Lemma find_update_rows_other (id other : string) (b : UpdateTask) (l : list Task) :
  String.eqb other id = false ->
  find (Xata.has_id other) (Xata.update_rows id b l) = find (Xata.has_id other) l.
Proof.
  intros Hne. induction l as [|x l IH]; simpl; trivial.
  destruct (Xata.has_id id x) eqn:E.
  - rewrite has_id_apply_body.
    assert (Ho : Xata.has_id other x = false).
    { unfold Xata.has_id in *. apply String.eqb_eq in E. rewrite E.
      rewrite String.eqb_sym. exact Hne. }
    rewrite Ho. exact IH.
  - rewrite IH. reflexivity.
Qed.

Lemma find_after_delete_other (id other : string) (l : list Task) :
  String.eqb other id = false ->
  find (Xata.has_id other) (filter (fun x => negb (Xata.has_id id x)) l) =
  find (Xata.has_id other) l.
Proof.
  intros Hne. induction l as [|x l IH]; simpl; trivial.
  destruct (Xata.has_id id x) eqn:E; simpl.
  - assert (Ho : Xata.has_id other x = false).
    { unfold Xata.has_id in *. apply String.eqb_eq in E. rewrite E.
      rewrite String.eqb_sym. exact Hne. }
    rewrite Ho. exact IH.
  - rewrite IH. reflexivity.
Qed.

Lemma notifications_snoc_write (j : list Event) (e : Event) :
  (forall m r, e <> Notified m r) ->
  notifications (j ++ [e]) = notifications j.
Proof.
  intros H. rewrite notifications_app.
  destruct e; simpl; try apply app_nil_r. exfalso. apply (H message0 recipient).
  reflexivity.
Qed.

(** *** Notifications *)

(** X6.  In every state of the store, [updateTask] calls the dispatcher at
    most once, and only after the store has taken the update of a row that
    was assigned: the recipient is the user the row was assigned to before
    the update, the message quotes the description after it. *)
Theorem updateTask_notifies_only_after_update
    (w : World) (taskId : string) (body : UpdateTask) :
  notifications (journal (snd (updateTask taskId body w))) = notifications (journal w)
  \/ exists task u,
       find (Xata.has_id taskId) (Task_table w) = Some task
       /\ assignedToId task = Some u
       /\ Task_table (snd (updateTask taskId body w)) =
            Xata.update_rows taskId body (Task_table w)
       /\ notifications (journal (snd (updateTask taskId body w))) =
            (notifications (journal w) ++
             [(("'" ++ description (Xata.apply_body body task) ++ "' updated!")%string,
               u)])%list.
Proof.
  destruct (updateTask_effect w taskId body)
    as [(_ & Hj & _)|(task & Hf & _ & Ht & [(_ & Hj & _)|(u & Ha & Hj)])].
  - left. rewrite Hj. reflexivity.
  - left. rewrite Hj. apply notifications_snoc_write. discriminate.
  - right. exists task, u. repeat split; trivial.
    rewrite Hj, notifications_app. reflexivity.
Qed.

(** X7.  In every state of the store, [deleteTaskFromProject] calls the
    dispatcher at most once, and only after the store has deleted a row that
    was assigned: then no row carries the identifier any more. *)
Theorem deleteTaskFromProject_notifies_only_after_delete
    (w : World) (taskId : string) :
  notifications (journal (snd (deleteTaskFromProject taskId w))) =
    notifications (journal w)
  \/ exists task u,
       find (Xata.has_id taskId) (Task_table w) = Some task
       /\ assignedToId task = Some u
       /\ find (Xata.has_id taskId)
               (Task_table (snd (deleteTaskFromProject taskId w))) = None
       /\ notifications (journal (snd (deleteTaskFromProject taskId w))) =
            (notifications (journal w) ++
             [(("'" ++ description task ++ "' deleted!")%string, u)])%list.
Proof.
  destruct (deleteTaskFromProject_effect w taskId)
    as [(_ & Hj & _)|(task & Hf & Ht & [(_ & Hj & _)|(u & Ha & Hj)])].
  - left. rewrite Hj. reflexivity.
  - left. rewrite Hj. apply notifications_snoc_write. discriminate.
  - right. exists task, u. repeat split; trivial.
    + rewrite Ht. apply find_after_delete.
    + rewrite Hj, notifications_app. reflexivity.
Qed.

(** X8.  A row assigned to nobody is updated or deleted without a call to
    the dispatcher, and the answer is 200 whatever the dispatcher would have
    said. *)
Theorem unassigned_row_is_not_notified
    (w : World) (taskId : string) (body : UpdateTask) (task : Task) :
  answers 2 w = true ->
  find (Xata.has_id taskId) (Task_table w) = Some task ->
  assignedToId task = None ->
  (status_rejected body = false ->
     fst (updateTask taskId body w) =
       mkEnvelope 200 "Task updated successfully" (Row (Xata.apply_body body task))
     /\ notifications (journal (snd (updateTask taskId body w))) =
          notifications (journal w))
  /\ fst (deleteTaskFromProject taskId w) =
       mkEnvelope 200 "Task deleted successfully" (Row task)
  /\ notifications (journal (snd (deleteTaskFromProject taskId w))) =
       notifications (journal w).
Proof.
  intros Hb Hf Ha. split; [intros Hs|].
  - unfold updateTask, try_catch, bind.
    rewrite Task_getFirst_answered by auto with store. rewrite Hf, Hs.
    rewrite (Task_update_answered _ _ task) by auto with store.
    rewrite Ha. simpl. split; [reflexivity|].
    apply notifications_snoc_write. discriminate.
  - unfold deleteTaskFromProject, try_catch, bind.
    rewrite Task_getFirst_answered by auto with store. rewrite Hf.
    rewrite (Task_delete_answered _ task) by auto with store.
    rewrite Ha. simpl. split; [reflexivity|].
    apply notifications_snoc_write. discriminate.
Qed.

(** X9.  [createTask], [patch] and [updateTaskStatus] never call the
    dispatcher, whatever their arguments and the state of the store. *)
Theorem create_patch_status_never_notify
    (w : World) (task : NewTask) (taskId status : string) (body : UpdateTask) :
  notifications (journal (snd (createTask task w))) = notifications (journal w)
  /\ notifications (journal (snd (patch taskId body w))) = notifications (journal w)
  /\ notifications (journal (snd (updateTaskStatus taskId status w))) =
       notifications (journal w).
Proof.
  split; [|split].
  - destruct (createTask_effect w task)
      as [(_ & Hj & _)|(_ & _ & row & _ & _ & _ & _ & Hj & _)]; rewrite Hj; trivial.
    apply notifications_snoc_write. discriminate.
  - destruct (patch_effect w taskId body) as [(_ & Hj)|(t & _ & _ & Hj)];
      rewrite Hj; trivial.
    apply notifications_snoc_write. discriminate.
  - destruct (updateTaskStatus_effect w taskId status) as [(_ & Hj)|(_ & _ & Hj)];
      rewrite Hj; trivial.
    apply notifications_snoc_write. discriminate.
Qed.

(** *** Status checks that are skipped *)

(** X10.  [patch] does not check the status of its body.  For a status
    that is not empty and that the validator refuses, [updateTask] answers
    400 and leaves the row as it was, while [patch] answers 200 and the row
    carries the refused status. *)
Theorem patch_skips_status_validation
    (w : World) (taskId : string) (body : UpdateTask) (task : Task) (s : string) :
  answers 3 w = true ->
  find (Xata.has_id taskId) (Task_table w) = Some task ->
  u_status body = Some s ->
  Js.truthy_string s = true ->
  isValidStatus s = false ->
  code (fst (updateTask taskId body w)) = 400
  /\ Task_table (snd (updateTask taskId body w)) = Task_table w
  /\ code (fst (patch taskId body w)) = 200
  /\ exists row,
       find (Xata.has_id taskId) (Task_table (snd (patch taskId body w))) = Some row
       /\ status row = s.
Proof.
  intros Hb Hf Hs Ht Hv.
  assert (Hr : status_rejected body = true).
  { unfold status_rejected. rewrite Hs, Ht, Hv. reflexivity. }
  assert (Hid : xata_id task = taskId).
  { apply find_some in Hf. destruct Hf as [_ Hid]. apply String.eqb_eq, Hid. }
  split; [|split; [|split]].
  - unfold updateTask, try_catch, bind.
    rewrite Task_getFirst_answered by auto with store. rewrite Hf, Hr. reflexivity.
  - unfold updateTask, try_catch, bind.
    rewrite Task_getFirst_answered by auto with store. rewrite Hf, Hr. reflexivity.
  - unfold patch, try_catch, bind.
    rewrite Task_getFirst_answered by auto with store. rewrite Hf, Hid.
    rewrite (Task_update_answered _ _ task) by auto with store.
    rewrite Task_read_answered
      by (change (answers 1 (spend (spend w)) = true); auto with store).
    reflexivity.
  - exists (Xata.apply_body body task). split.
    + unfold patch, try_catch, bind.
      rewrite Task_getFirst_answered by auto with store. rewrite Hf, Hid.
      rewrite (Task_update_answered _ _ task) by auto with store.
      rewrite Task_read_answered
        by (change (answers 1 (spend (spend w)) = true); auto with store).
      simpl. apply find_update_rows, Hf.
    + simpl. rewrite Hs. reflexivity.
Qed.

(** X11.  [updateTask] asks the validator only about a status that is not
    empty: a body whose status is the empty string passes, whatever the
    validator would say of it, and the row is stored with an empty status. *)
Theorem updateTask_stores_empty_status
    (w : World) (taskId : string) (body : UpdateTask) (task : Task) :
  answers 2 w = true ->
  find (Xata.has_id taskId) (Task_table w) = Some task ->
  u_status body = Some EmptyString ->
  exists row,
    find (Xata.has_id taskId) (Task_table (snd (updateTask taskId body w))) = Some row
    /\ status row = EmptyString.
Proof.
  intros Hb Hf Hs.
  assert (Hr : status_rejected body = false).
  { unfold status_rejected. rewrite Hs. reflexivity. }
  exists (Xata.apply_body body task). split.
  - unfold updateTask, try_catch, bind.
    rewrite Task_getFirst_answered by auto with store. rewrite Hf, Hr.
    rewrite (Task_update_answered _ _ task) by auto with store.
    destruct (assignedToId task) as [u|]; simpl;
      [unfold createNotification; destruct (code (dispatcher _ u) =? 201); simpl|];
      apply find_update_rows, Hf.
  - simpl. rewrite Hs. reflexivity.
Qed.

(** *** A store that fails in the middle of an operation *)

(** X12.  [patch] can answer 500 although the update was stored: when the
    store answers the lookup and the update and rejects the read that
    follows, the answer is the one of the catch clause, and the row carries
    the body all the same. *)
Theorem patch_reports_500_after_commit
    (w : World) (taskId : string) (body : UpdateTask) (task : Task) :
  budget w = Some 2%nat ->
  find (Xata.has_id taskId) (Task_table w) = Some task ->
  fst (patch taskId body w) =
    mkEnvelope 500 "Internal server error" (Text (fault_text w))
  /\ find (Xata.has_id taskId) (Task_table (snd (patch taskId body w))) =
       Some (Xata.apply_body body task)
  /\ journal (snd (patch taskId body w)) = (journal w ++ [Updated taskId body])%list.
Proof.
  intros Hbud Hf.
  assert (Hid : xata_id task = taskId).
  { apply find_some in Hf. destruct Hf as [_ Hid]. apply String.eqb_eq, Hid. }
  assert (H1 : answers 1 w = true) by (unfold answers; rewrite Hbud; reflexivity).
  assert (H2 : answers 1 (spend w) = true)
    by (unfold answers, spend; simpl; rewrite Hbud; reflexivity).
  unfold patch, try_catch, bind.
  rewrite Task_getFirst_answered by exact H1. rewrite Hf, Hid.
  rewrite (Task_update_answered taskId body task (spend w) H2 Hf).
  rewrite Task_read_rejected
    by (unfold answers, spend; simpl; rewrite Hbud; reflexivity).
  simpl. split; [reflexivity|]. split; [apply find_update_rows, Hf|reflexivity].
Qed.

(** X13.  When the store answers the lookup and rejects the write,
    [updateTask] and [deleteTaskFromProject] answer 500, the table is as it
    was, and the dispatcher is not called. *)
Theorem rejected_write_changes_nothing
    (w : World) (taskId : string) (body : UpdateTask) (task : Task) :
  budget w = Some 1%nat ->
  find (Xata.has_id taskId) (Task_table w) = Some task ->
  (status_rejected body = false ->
     code (fst (updateTask taskId body w)) = 500
     /\ Task_table (snd (updateTask taskId body w)) = Task_table w
     /\ journal (snd (updateTask taskId body w)) = journal w)
  /\ code (fst (deleteTaskFromProject taskId w)) = 500
  /\ Task_table (snd (deleteTaskFromProject taskId w)) = Task_table w
  /\ journal (snd (deleteTaskFromProject taskId w)) = journal w.
Proof.
  intros Hbud Hf.
  assert (H1 : answers 1 w = true) by (unfold answers; rewrite Hbud; reflexivity).
  assert (H2 : answers 1 (spend w) = false)
    by (unfold answers, spend; simpl; rewrite Hbud; reflexivity).
  split; [intros Hs|].
  - unfold updateTask, try_catch, bind.
    rewrite Task_getFirst_answered by exact H1. rewrite Hf, Hs.
    rewrite Task_update_rejected by exact H2. repeat split.
  - unfold deleteTaskFromProject, try_catch, bind.
    rewrite Task_getFirst_answered by exact H1. rewrite Hf.
    rewrite Task_delete_rejected by exact H2. repeat split.
Qed.

(** X14.  With the store unreachable, every operation that awaits it
    reports the failure and changes nothing; [fetchTasks] and
    [fetchTaskByid] return the text of the error as it is, the others an
    envelope of code 500 whose details are that text.  ([createTask] is
    left out: its first request is not awaited, and the failure of that
    request is not caught by the operation.) *)
Theorem unreachable_store_is_reported
    (w : World) (id status : string) (body : UpdateTask) :
  budget w = Some 0%nat ->
  fetchTasks w = (Failed (fault_text w), w)
  /\ fetchTaskByid id w = (Bare (fault_text w), w)
  /\ fetchTaskByProjectId id w =
       (mkEnvelope 500 "Internal server error" (Text (fault_text w)), w)
  /\ fetchTaskByUserId id w =
       (mkEnvelope 500 "Internal server error" (Text (fault_text w)), w)
  /\ updateTask id body w =
       (mkEnvelope 500 "Internal server error" (Text (fault_text w)), w)
  /\ patch id body w =
       (mkEnvelope 500 "Internal server error" (Text (fault_text w)), w)
  /\ deleteTaskFromProject id w =
       (mkEnvelope 500 "Internal server error" (Text (fault_text w)), w)
  /\ (isValidStatus status = true ->
      updateTaskStatus id status w =
        (mkEnvelope 500 "Internal server error" (Text (fault_text w)), w)).
Proof.
  intros Hbud.
  assert (H0 : answers 1 w = false) by (unfold answers; rewrite Hbud; reflexivity).
  unfold fetchTasks, fetchTaskByid, fetchTaskByProjectId, fetchTaskByUserId,
    updateTask, patch, deleteTaskFromProject, updateTaskStatus,
    try_catch, bind.
  rewrite Task_getAll_newest_first_rejected by exact H0.
  rewrite !Task_getFirst_rejected by exact H0.
  rewrite !Task_getAll_rejected by exact H0.
  repeat split.
  intros Hv. rewrite Hv. simpl.
  rewrite Task_getFirst_rejected by exact H0. reflexivity.
Qed.

(** *** What the operations leave alone *)

(** X15.  The mutators touch no row but the one they are called for: the
    row found under any other identifier is the same before and after
    [updateTask], [patch], [updateTaskStatus] and [deleteTaskFromProject],
    in every state of the store. *)
Theorem mutators_leave_other_rows
    (w : World) (taskId other status : string) (body : UpdateTask) :
  String.eqb other taskId = false ->
  find (Xata.has_id other) (Task_table (snd (updateTask taskId body w))) =
    find (Xata.has_id other) (Task_table w)
  /\ find (Xata.has_id other) (Task_table (snd (patch taskId body w))) =
       find (Xata.has_id other) (Task_table w)
  /\ find (Xata.has_id other) (Task_table (snd (updateTaskStatus taskId status w))) =
       find (Xata.has_id other) (Task_table w)
  /\ find (Xata.has_id other) (Task_table (snd (deleteTaskFromProject taskId w))) =
       find (Xata.has_id other) (Task_table w).
Proof.
  intros Hne. split; [|split; [|split]].
  - destruct (updateTask_effect w taskId body) as [(Ht & _)|(t & _ & _ & Ht & _)];
      rewrite Ht; trivial. apply find_update_rows_other, Hne.
  - destruct (patch_effect w taskId body) as [(Ht & _)|(t & _ & Ht & _)];
      rewrite Ht; trivial. apply find_update_rows_other, Hne.
  - destruct (updateTaskStatus_effect w taskId status) as [(Ht & _)|(_ & Ht & _)];
      rewrite Ht; trivial.
    apply (find_update_rows_other taskId other
             (mkUpdateTask None (Some status) None None)), Hne.
  - destruct (deleteTaskFromProject_effect w taskId) as [(Ht & _)|(t & _ & Ht & _)];
      rewrite Ht; trivial. apply find_after_delete_other, Hne.
Qed.

(** X16.  [updateTaskStatus] keeps the statuses of the table valid: if the
    validator accepts the status of every stored row before the call, it
    accepts the status of every stored row after it, whatever the
    arguments and the state of the store. *)
Theorem updateTaskStatus_keeps_statuses_valid
    (w : World) (taskId s : string) :
  (forall t, In t (Task_table w) -> isValidStatus (status t) = true) ->
  forall t, In t (Task_table (snd (updateTaskStatus taskId s w))) ->
            isValidStatus (status t) = true.
Proof.
  intros Hall t.
  destruct (updateTaskStatus_effect w taskId s) as [(Ht & _)|(Hv & Ht & _)];
    rewrite Ht; [apply Hall|].
  intros Hin. apply in_map_iff in Hin. destruct Hin as (x & Hx & Hin).
  destruct (Xata.has_id taskId x); subst t; [exact Hv|apply Hall, Hin].
Qed.

(** X17.  The four reads only read: after [fetchTasks],
    [fetchTaskByProjectId], [fetchTaskByid] and [fetchTaskByUserId] the
    tables, the identifier counter and the journal are what they were. *)
Theorem reads_change_nothing (w : World) (id : string) :
  same_data w (snd (fetchTasks w))
  /\ same_data w (snd (fetchTaskByProjectId id w))
  /\ same_data w (snd (fetchTaskByid id w))
  /\ same_data w (snd (fetchTaskByUserId id w)).
Proof.
  unfold fetchTasks, fetchTaskByProjectId, fetchTaskByid, fetchTaskByUserId,
    try_catch, bind.
  destruct (answers 1 w) eqn:Hb.
  - rewrite Task_getAll_newest_first_answered by exact Hb.
    rewrite !Task_getAll_answered by exact Hb.
    rewrite Task_getFirst_answered by exact Hb.
    destruct (Nat.eqb _ 0); destruct (find _ (Task_table w));
      repeat split.
  - rewrite Task_getAll_newest_first_rejected by exact Hb.
    rewrite !Task_getAll_rejected by exact Hb.
    rewrite Task_getFirst_rejected by exact Hb.
    repeat split.
Qed.

(** *** What the filtered reads return *)

(** X18.  With the store answering, [fetchTaskByProjectId] answers 200
    with exactly the stored rows of the project when there is one, and 404
    when the project has no row; [fetchTaskByUserId] answers 200 with
    exactly the stored rows assigned to the user. *)
Theorem filtered_reads_are_exact (w : World) (p u : string) :
  answers 1 w = true ->
  ((code (fst (fetchTaskByProjectId p w)) = 200
    /\ exists l, details (fst (fetchTaskByProjectId p w)) = Rows l
                 /\ l <> []
                 /\ forall t, In t l <-> In t (Task_table w) /\ projectId t = p)
   \/ (code (fst (fetchTaskByProjectId p w)) = 404
       /\ forall t, In t (Task_table w) -> projectId t <> p))
  /\ code (fst (fetchTaskByUserId u w)) = 200
  /\ exists l, details (fst (fetchTaskByUserId u w)) = Rows l
               /\ forall t, In t l <-> In t (Task_table w) /\ assignedToId t = Some u.
Proof.
  intros Hb. unfold fetchTaskByProjectId, fetchTaskByUserId, try_catch, bind.
  rewrite !Task_getAll_answered by exact Hb. split; [|split; [reflexivity|]].
  - destruct (filter (Xata.has_project p) (Task_table w)) as [|x l] eqn:E; simpl.
    + right. split; [reflexivity|]. intros t Hin Hp.
      assert (Hx : In t (filter (Xata.has_project p) (Task_table w))).
      { apply filter_In. split; [exact Hin|]. apply String.eqb_eq, Hp. }
      rewrite E in Hx. exact Hx.
    + left. split; [reflexivity|]. exists (x :: l). split; [reflexivity|].
      split; [discriminate|]. intros t. rewrite <- E, filter_In.
      unfold Xata.has_project. rewrite String.eqb_eq. reflexivity.
  - eexists. split; [reflexivity|]. intros t. rewrite filter_In.
    unfold Xata.has_assignee. destruct (assignedToId t) as [v|].
    + rewrite String.eqb_eq. split; intros [H1 H2]; split; congruence.
    + split; intros [H1 H2]; discriminate.
Qed.

(** *** Operations in sequence *)

Lemma find_app_last (f : Task -> bool) (l : list Task) (x : Task) :
  find f l = None -> f x = true -> find f (l ++ [x]) = Some x.
Proof.
  intros Hn Hx. induction l as [|y l IH]; simpl in *.
  - rewrite Hx. reflexivity.
  - destruct (f y); [discriminate|]. apply IH, Hn.
Qed.

(** X19.  A created task can be read back: after a [createTask] answered
    with 201, [fetchTaskByid] under the identifier of the reported row
    answers 200 with that row, provided the identifier the store assigned
    was carried by no row before. *)
Theorem createTask_then_fetchTaskByid (w : World) (task : NewTask) :
  code (fst (createTask task w)) = 201 ->
  answers 1 (snd (createTask task w)) = true ->
  find (Xata.has_id (Xata.fresh_id w)) (Task_table w) = None ->
  exists row,
    details (fst (createTask task w)) = Row row
    /\ fst (fetchTaskByid (xata_id row) (snd (createTask task w))) =
         Enveloped (mkEnvelope 200 "task found!" (Row row)).
Proof.
  intros Hc Hb Hfresh.
  destruct (createTask_effect w task)
    as [(_ & _ & Hn)|(_ & _ & row & _ & _ & Hid & Ht & _ & He)]; [contradiction|].
  exists row. split; [rewrite He; reflexivity|].
  unfold fetchTaskByid, try_catch, bind.
  rewrite Task_getFirst_answered by exact Hb. rewrite Ht, Hid.
  rewrite (find_app_last _ _ row Hfresh); [reflexivity|].
  unfold Xata.has_id. rewrite Hid. apply String.eqb_refl.
Qed.

(** X20.  A created task heads the listing: after a [createTask] answered
    with 201, [fetchTasks] returns the reported row first, followed by the
    rows stored before, newest first. *)
Theorem createTask_then_fetchTasks (w : World) (task : NewTask) :
  code (fst (createTask task w)) = 201 ->
  answers 1 (snd (createTask task w)) = true ->
  exists row,
    details (fst (createTask task w)) = Row row
    /\ fst (fetchTasks (snd (createTask task w))) =
         Listed (row :: rev (Task_table w)).
Proof.
  intros Hc Hb.
  destruct (createTask_effect w task)
    as [(_ & _ & Hn)|(_ & _ & row & _ & _ & _ & Ht & _ & He)]; [contradiction|].
  exists row. split; [rewrite He; reflexivity|].
  unfold fetchTasks, try_catch, bind.
  rewrite Task_getAll_newest_first_answered by exact Hb.
  rewrite Ht, rev_app_distr. reflexivity.
Qed.

(** The world after a delete that the store answered. *)
Lemma deleteTaskFromProject_answered (w : World) (taskId : string) (task : Task) :
  answers 2 w = true ->
  find (Xata.has_id taskId) (Task_table w) = Some task ->
  Task_table (snd (deleteTaskFromProject taskId w)) =
    filter (fun x => negb (Xata.has_id taskId x)) (Task_table w)
  /\ budget (snd (deleteTaskFromProject taskId w)) = budget (spend (spend w)).
Proof.
  intros Hb Hf. unfold deleteTaskFromProject, try_catch, bind.
  rewrite Task_getFirst_answered by auto with store. rewrite Hf.
  rewrite (Task_delete_answered _ task) by auto with store.
  destruct (assignedToId task) as [u|]; simpl;
    [unfold createNotification; destruct (code (dispatcher _ u) =? 201); simpl|];
    split; reflexivity.
Qed.

Lemma answers_by_budget (n : nat) (w w' : World) :
  budget w' = budget w -> answers n w = true -> answers n w' = true.
Proof. unfold answers. intros ->. trivial. Qed.

(** X21.  A deleted task is gone for the other operations: after a
    [deleteTaskFromProject] that the store carried out, whatever the
    dispatcher answered, [fetchTaskByid] under the same identifier answers
    404, and a second [deleteTaskFromProject] answers 404, writes nothing
    and notifies nobody. *)
Theorem deleteTaskFromProject_then_missing
    (w : World) (taskId : string) (task : Task) :
  answers 3 w = true ->
  find (Xata.has_id taskId) (Task_table w) = Some task ->
  (exists e, fst (fetchTaskByid taskId (snd (deleteTaskFromProject taskId w))) =
               Enveloped e /\ code e = 404)
  /\ code (fst (deleteTaskFromProject taskId (snd (deleteTaskFromProject taskId w)))) = 404
  /\ journal (snd (deleteTaskFromProject taskId (snd (deleteTaskFromProject taskId w)))) =
       journal (snd (deleteTaskFromProject taskId w)).
Proof.
  intros Hb Hf.
  destruct (deleteTaskFromProject_answered w taskId task) as (Ht & Hbud);
    [auto with store|exact Hf|].
  assert (Hb' : answers 1 (snd (deleteTaskFromProject taskId w)) = true).
  { apply (answers_by_budget 1 _ _ Hbud). auto with store. }
  assert (Hgone : find (Xata.has_id taskId)
                       (Task_table (snd (deleteTaskFromProject taskId w))) = None).
  { rewrite Ht. apply find_after_delete. }
  split; [|split].
  - unfold fetchTaskByid at 1, try_catch, bind.
    rewrite Task_getFirst_answered by exact Hb'. rewrite Hgone.
    eexists. split; reflexivity.
  - unfold deleteTaskFromProject at 1, try_catch, bind.
    rewrite Task_getFirst_answered by exact Hb'. rewrite Hgone. reflexivity.
  - unfold deleteTaskFromProject at 1, try_catch, bind.
    rewrite Task_getFirst_answered by exact Hb'. rewrite Hgone. reflexivity.
Qed.

(** The world after a status update that the store answered. *)
Lemma updateTaskStatus_answered (w : World) (taskId s : string) (task : Task) :
  answers 2 w = true ->
  isValidStatus s = true ->
  find (Xata.has_id taskId) (Task_table w) = Some task ->
  Task_table (snd (updateTaskStatus taskId s w)) =
    Xata.update_rows taskId (mkUpdateTask None (Some s) None None) (Task_table w)
  /\ budget (snd (updateTaskStatus taskId s w)) = budget (spend (spend w)).
Proof.
  intros Hb Hv Hf. unfold updateTaskStatus, try_catch, bind. rewrite Hv. simpl.
  rewrite Task_getFirst_answered by auto with store. rewrite Hf.
  rewrite (Task_update_answered _ _ task) by auto with store.
  split; reflexivity.
Qed.

(** X22.  A status set by [updateTaskStatus] is the status read back: from
    any stored status, once a valid status was set, [fetchTaskByid] answers
    200 with the row carrying the new status and its other columns
    unchanged. *)
Theorem updateTaskStatus_then_fetchTaskByid
    (w : World) (taskId s : string) (task : Task) :
  answers 3 w = true ->
  isValidStatus s = true ->
  find (Xata.has_id taskId) (Task_table w) = Some task ->
  fst (fetchTaskByid taskId (snd (updateTaskStatus taskId s w))) =
    Enveloped (mkEnvelope 200 "task found!" (Row (with_status s task))).
Proof.
  intros Hb Hv Hf.
  destruct (updateTaskStatus_answered w taskId s task) as (Ht & Hbud);
    [auto with store|exact Hv|exact Hf|].
  assert (Hb' : answers 1 (snd (updateTaskStatus taskId s w)) = true).
  { apply (answers_by_budget 1 _ _ Hbud). auto with store. }
  unfold fetchTaskByid, try_catch, bind.
  rewrite Task_getFirst_answered by exact Hb'. rewrite Ht.
  rewrite (find_update_rows taskId (mkUpdateTask None (Some s) None None) _ _ Hf).
  reflexivity.
Qed.

End TaskService.

(** ** The lowercasing of ASCII strings *)

Lemma lower_ascii_idempotent (c : ascii) :
  Js.lower_ascii (Js.lower_ascii c) = Js.lower_ascii c.
Proof.
  destruct c as [[] [] [] [] [] [] [] []]; reflexivity.
Qed.

Lemma toLowerCase_idempotent (s : string) :
  Js.toLowerCase (Js.toLowerCase s) = Js.toLowerCase s.
Proof.
  induction s as [|c s IH]; simpl; trivial.
  rewrite lower_ascii_idempotent, IH. reflexivity.
Qed.

(** ** The properties at sample stores and inputs *)

(** C1.  A task for a project the store does not hold is not answered with
    404: the status check and the uniqueness check pass, and the task is
    created, with code 201, linked to the missing project. *)
Theorem createTask_missing_project_is_created :
  find (fun p => String.eqb (project_id p) (n_projectId Sample.orphan))
       (Project_table Sample.w0) = None
  /\ code (fst (createTask isValidStatus_spec Js.toLowerCase EcmaDate.parse EcmaDate.toISO
                  Sample.orphan Sample.w0)) = 201
  /\ Task_table (snd (createTask isValidStatus_spec Js.toLowerCase EcmaDate.parse EcmaDate.toISO
                        Sample.orphan Sample.w0)) =
       [mkTask "rec_0" "complete the report" "completed"
               "2023-12-31T00:00:00.000Z" "project999" None].
Proof. repeat split. Qed.

(** At the store [w1], with a dispatcher that fails: the answer is the
    dispatcher's, and the retitled row is in the store. *)
Lemma updateTask_notifies_and_propagates_witness :
  fst (updateTask isValidStatus_spec Sample.failing "rec_0" Sample.retitle Sample.w1) =
    mkEnvelope 500 "Internal server error" (Text "Error: fetch failed")
  /\ journal (snd (updateTask isValidStatus_spec Sample.failing "rec_0"
                     Sample.retitle Sample.w1)) =
       [Created Sample.row0; Updated "rec_0" Sample.retitle;
        Notified "'Complete The Report' updated!" "user456"]
  /\ find (Xata.has_id "rec_0")
          (Task_table (snd (updateTask isValidStatus_spec Sample.failing "rec_0"
                              Sample.retitle Sample.w1))) =
       Some Sample.row0_retitled.
Proof.
  pose proof (updateTask_notifies_and_propagates isValidStatus_spec Sample.failing
                Sample.w1 "rec_0" Sample.retitle Sample.row0 "user456"
                eq_refl eq_refl eq_refl eq_refl) as H.
  cbv zeta in H. destruct H as (Hj & _ & Hf & Hn & _).
  split; [apply Hn; discriminate|]. split; [exact Hj|exact Hf].
Defined.

(** At the store [w1], with a dispatcher that fails: the answer has code
    500, and the row is gone. *)
Lemma deleteTaskFromProject_notifies_and_propagates_witness :
  code (fst (deleteTaskFromProject Sample.failing "rec_0" Sample.w1)) = 500
  /\ journal (snd (deleteTaskFromProject Sample.failing "rec_0" Sample.w1)) =
       [Created Sample.row0; Deleted "rec_0";
        Notified "'complete the report' deleted!" "user456"]
  /\ find (Xata.has_id "rec_0")
          (Task_table (snd (deleteTaskFromProject Sample.failing "rec_0" Sample.w1))) =
       None.
Proof.
  pose proof (deleteTaskFromProject_notifies_and_propagates Sample.failing
                Sample.w1 "rec_0" Sample.row0 "user456"
                eq_refl eq_refl eq_refl) as H.
  cbv zeta in H. destruct H as (Hj & Hf & _ & Hn & _).
  split; [apply Hn; reflexivity|]. split; [exact Hj|exact Hf].
Defined.

(** At the store [w1], with the validator of the spec: [done] on a missing
    identifier gives 400, [completed] on it gives 404, and [completed] on
    the stored row replaces its status. *)
Lemma updateTaskStatus_validates_first_witness :
  code (fst (updateTaskStatus isValidStatus_spec "missing-id" "done" Sample.w1)) = 400
  /\ code (fst (updateTaskStatus isValidStatus_spec "missing-id" "completed" Sample.w1)) = 404
  /\ find (Xata.has_id "rec_0")
          (Task_table (snd (updateTaskStatus isValidStatus_spec "rec_0" "completed"
                              Sample.w1))) =
       Some (with_status "completed" Sample.row0).
Proof.
  split; [|split].
  - apply (updateTaskStatus_validates_first isValidStatus_spec Sample.w1
             "missing-id" "done"). reflexivity.
  - apply (updateTaskStatus_validates_first isValidStatus_spec Sample.w1
             "missing-id" "completed"); reflexivity.
  - apply (updateTaskStatus_validates_first isValidStatus_spec Sample.w1
             "rec_0" "completed"); reflexivity.
Defined.

(** C5 as the claim reads does not hold: the project exists, the status is
    valid and no stored description matches, yet the answer is 500 and no
    row is stored, because the due date is no date. *)
Lemma createTask_undated_counterexample :
  (exists p, In p (Project_table Sample.w0)
             /\ project_id p = n_projectId Sample.undated)
  /\ isValidStatus_spec (n_status Sample.undated) = true
  /\ (forall x, In x (Task_table Sample.w0) ->
                eq_ci Js.toLowerCase (description x) (n_description Sample.undated) = false)
  /\ code (fst (createTask isValidStatus_spec Js.toLowerCase EcmaDate.parse EcmaDate.toISO
                  Sample.undated Sample.w0)) = 500
  /\ Task_table (snd (createTask isValidStatus_spec Js.toLowerCase EcmaDate.parse EcmaDate.toISO
                        Sample.undated Sample.w0)) = [].
Proof.
  split; [exists (mkProject "project123"); split; [left|]; reflexivity|].
  split; [reflexivity|]. split; [intros x []|]. split; reflexivity.
Qed.

(** At a store with two rows: a task whose description neither row has
    is stored in canonical form. *)
Lemma createTask_persists_canonical_witness :
  fst (createTask isValidStatus_spec Js.toLowerCase EcmaDate.parse EcmaDate.toISO
         Scenario.flight Scenario.two_rows) =
    mkEnvelope 201 "Task created successfully"
      (Row (mkTask "rec_2" "book the flight" "completed"
                   "2024-02-29T00:00:00.000Z" "project123" None))
  /\ Task_table (snd (createTask isValidStatus_spec Js.toLowerCase EcmaDate.parse
                        EcmaDate.toISO Scenario.flight Scenario.two_rows)) =
       [Sample.row0; Scenario.row1;
        mkTask "rec_2" "book the flight" "completed"
               "2024-02-29T00:00:00.000Z" "project123" None].
Proof.
  apply (createTask_persists_canonical isValidStatus_spec Js.toLowerCase
           EcmaDate.parse EcmaDate.toISO Scenario.two_rows Scenario.flight
           1709164800000).
  - exact toLowerCase_idempotent.
  - reflexivity.
  - exists (mkProject "project123"). split; [left|]; reflexivity.
  - reflexivity.
  - intros x [<-|[<-|[]]]; reflexivity.
  - reflexivity.
Defined.

(** C6 as the claim reads does not hold.  From the store [w0], creating the
    report and then updating its description to a capitalised one gives the
    store [w2]; there a stored row has the description of the report up to
    letter case, yet creating the report again is answered with 201 and
    stores a second row.  And at the store [w1], which holds the report in
    lowercase, the report with a status that is not a recognised one is
    answered with 400, the status being checked first. *)
Lemma createTask_duplicate_after_update_counterexample :
  snd (updateTask isValidStatus_spec Sample.delivered "rec_0" Sample.retitle
         (snd (createTask isValidStatus_spec Js.toLowerCase EcmaDate.parse EcmaDate.toISO
                 Sample.report Sample.w0))) = Sample.w2
  /\ In Sample.row0_retitled (Task_table Sample.w2)
  /\ eq_ci Js.toLowerCase (description Sample.row0_retitled) (n_description Sample.report) = true
  /\ code (fst (createTask isValidStatus_spec Js.toLowerCase EcmaDate.parse EcmaDate.toISO
                  Sample.report Sample.w2)) = 201
  /\ Task_table (snd (createTask isValidStatus_spec Js.toLowerCase EcmaDate.parse EcmaDate.toISO
                        Sample.report Sample.w2)) =
       [Sample.row0_retitled;
        mkTask "rec_1" "complete the report" "in-progress"
               "2023-12-31T00:00:00.000Z" "project123" (Some "user456")]
  /\ eq_ci Js.toLowerCase (description Sample.row0)
            (n_description Scenario.report_done) = true
  /\ code (fst (createTask isValidStatus_spec Js.toLowerCase EcmaDate.parse
                  EcmaDate.toISO Scenario.report_done Sample.w1)) = 400.
Proof.
  split; [reflexivity|]. split; [left; reflexivity|]. repeat split.
Qed.

(** At the store [w1]: the report in capitals conflicts with the stored
    row. *)
Lemma createTask_conflict_on_lowercase_rows_witness :
  code (fst (createTask isValidStatus_spec Js.toLowerCase EcmaDate.parse EcmaDate.toISO
               Sample.report_shouted Sample.w1)) = 409
  /\ Task_table (snd (createTask isValidStatus_spec Js.toLowerCase EcmaDate.parse EcmaDate.toISO
                        Sample.report_shouted Sample.w1)) = [Sample.row0]
  /\ journal (snd (createTask isValidStatus_spec Js.toLowerCase EcmaDate.parse EcmaDate.toISO
                     Sample.report_shouted Sample.w1)) = [Created Sample.row0].
Proof.
  apply (createTask_conflict_on_lowercase_rows isValidStatus_spec Js.toLowerCase EcmaDate.parse
           EcmaDate.toISO Sample.w1 Sample.report_shouted Sample.row0).
  - reflexivity.
  - reflexivity.
  - left. reflexivity.
  - reflexivity.
  - reflexivity.
Defined.

(** At the store [w1], for an identifier it does not hold. *)
Lemma updateTask_patch_missing_task_400_witness :
  code (fst (updateTask isValidStatus_spec Sample.delivered "missing-id"
               Sample.retitle Sample.w1)) = 400
  /\ code (fst (patch "missing-id" Sample.retitle Sample.w1)) = 400.
Proof.
  pose proof (updateTask_patch_missing_task_400 isValidStatus_spec Sample.delivered
                Sample.w1 "missing-id" Sample.retitle eq_refl eq_refl) as H.
  destruct H as (Hu & Hp & _). split; [exact Hu|exact Hp].
Defined.

(** At the store [w1], for a project, an identifier and a user without
    tasks. *)
Lemma empty_result_policy_witness :
  code (fst (fetchTaskByProjectId "project999" Sample.w1)) = 404
  /\ (exists e, fst (fetchTaskByid "missing-id" Sample.w1) = Enveloped e
                /\ code e = 404)
  /\ code (fst (fetchTaskByUserId "user999" Sample.w1)) = 200
  /\ details (fst (fetchTaskByUserId "user999" Sample.w1)) = Rows [].
Proof.
  pose proof (empty_result_policy Sample.w1 "project999" "missing-id" "user999"
                eq_refl) as H.
  destruct H as (Hp & Hi & Hu).
  split; [apply Hp; reflexivity|]. split; [apply Hi; reflexivity|].
  apply Hu. reflexivity.
Defined.

(** At the empty store [w0], for the report with a due date that is no
    date. *)
Lemma createTask_unparsable_dueDate_500_witness :
  code (fst (createTask isValidStatus_spec Js.toLowerCase EcmaDate.parse EcmaDate.toISO
               Sample.undated Sample.w0)) = 500
  /\ details (fst (createTask isValidStatus_spec Js.toLowerCase EcmaDate.parse EcmaDate.toISO
                     Sample.undated Sample.w0)) =
       Text "RangeError: Invalid time value"
  /\ Task_table (snd (createTask isValidStatus_spec Js.toLowerCase EcmaDate.parse EcmaDate.toISO
                        Sample.undated Sample.w0)) = [].
Proof.
  pose proof (createTask_unparsable_dueDate_500 isValidStatus_spec Js.toLowerCase EcmaDate.parse
                EcmaDate.toISO Sample.w0 Sample.undated eq_refl eq_refl eq_refl) as H.
  destruct H as (Hc & _ & Ht & _ & Hd).
  split; [exact Hc|]. split; [apply Hd; reflexivity|exact Ht].
Defined.

(** At the store [w1]: a capitalised description and a due date that is no
    ISO text are stored as given. *)
Lemma updateTask_patch_store_body_verbatim_witness :
  (exists row,
     find (Xata.has_id "rec_0")
          (Task_table (snd (updateTask isValidStatus_spec Sample.delivered "rec_0"
                              Sample.redate Sample.w1))) = Some row
     /\ description row = "Complete The Report"
     /\ dueDate row = "tomorrow"
     /\ Js.toLowerCase (description row) <> description row)
  /\ (exists row,
        fst (patch "rec_0" Sample.redate Sample.w1) =
          mkEnvelope 200 "Task updated successfully" (Row row)
        /\ description row = "Complete The Report"
        /\ dueDate row = "tomorrow"
        /\ Js.toLowerCase (description row) <> description row).
Proof.
  pose proof (updateTask_patch_store_body_verbatim isValidStatus_spec
                Js.toLowerCase Sample.delivered Sample.w1 "rec_0" Sample.redate Sample.row0
                eq_refl eq_refl) as H.
  destruct H as (Hu & (r & Hf & Hd & Hdue & Hl & He)).
  split.
  - destruct (Hu eq_refl) as (q & Hq & Hqd & Hqdue & Hql & _).
    exists q. split; [exact Hq|]. split; [apply Hqd; reflexivity|].
    split; [apply Hqdue; reflexivity|]. apply (Hql _ eq_refl). discriminate.
  - exists r. split; [exact He|]. split; [apply Hd; reflexivity|].
    split; [apply Hdue; reflexivity|]. apply (Hl _ eq_refl). discriminate.
Defined.

(** ** The project controller *)

(** X23.  [create] answers a request that failed validation with status
    400 and the validation errors, and does not call the project service:
    the world is left as it was, whatever the service would have done. *)
Theorem create_rejects_invalid_request
    (Body Projects : Type) (createProject : Body -> M Envelope)
    (req : ProjectController.Request Body) (w : World) :
  ProjectController.validation_errors req <> [] ->
  ProjectController.create Body Projects createProject req w =
    (ProjectController.mkResponse 400
       (ProjectController.Errors (ProjectController.validation_errors req)), w).
Proof.
  intros Hne. unfold ProjectController.create, try_catch, bind.
  destruct (ProjectController.validation_errors req) as [|e errors];
    [contradiction|reflexivity].
Qed.

(** ** Further properties at sample stores and inputs *)

(** The report with the status [done], on a store that is unreachable. *)
Lemma createTask_invalid_status_400_witness :
  fst (createTask isValidStatus_spec Js.toLowerCase EcmaDate.parse EcmaDate.toISO
         Scenario.report_done Scenario.unreachable) =
    mkEnvelope 400 "Invalid status!" status_hint
  /\ snd (createTask isValidStatus_spec Js.toLowerCase EcmaDate.parse EcmaDate.toISO
            Scenario.report_done Scenario.unreachable) = Scenario.unreachable.
Proof.
  apply (createTask_invalid_status_400 isValidStatus_spec Js.toLowerCase EcmaDate.parse
           EcmaDate.toISO Scenario.unreachable Scenario.report_done).
  reflexivity.
Defined.

(** The row stored for the report on the empty store is in lowercase. *)
Lemma createTask_keeps_descriptions_lowercase_witness :
  Js.toLowerCase (description Sample.row0) = description Sample.row0.
Proof.
  apply (createTask_keeps_descriptions_lowercase isValidStatus_spec Js.toLowerCase EcmaDate.parse
           EcmaDate.toISO Sample.w0 Sample.report).
  - exact toLowerCase_idempotent.
  - intros t [].
  - left. reflexivity.
Defined.


(** The report, then the report in capitals. *)
Lemma createTask_twice_conflicts_witness :
  code (fst (createTask isValidStatus_spec Js.toLowerCase EcmaDate.parse EcmaDate.toISO
               Sample.report_shouted
               (snd (createTask isValidStatus_spec Js.toLowerCase EcmaDate.parse EcmaDate.toISO
                       Sample.report Sample.w0)))) = 409.
Proof.
  apply (createTask_twice_conflicts isValidStatus_spec Js.toLowerCase EcmaDate.parse EcmaDate.toISO
           Sample.w0 Sample.report Sample.report_shouted); reflexivity.
Defined.

(** The unassigned row, with a dispatcher that would fail. *)
Lemma unassigned_row_is_not_notified_witness :
  code (fst (updateTask isValidStatus_spec Sample.failing "rec_1" Sample.retitle
               Scenario.two_rows)) = 200
  /\ code (fst (deleteTaskFromProject Sample.failing "rec_1" Scenario.two_rows)) = 200
  /\ notifications (journal (snd (deleteTaskFromProject Sample.failing "rec_1"
                                    Scenario.two_rows))) = [].
Proof.
  pose proof (unassigned_row_is_not_notified isValidStatus_spec Sample.failing
                Scenario.two_rows "rec_1" Sample.retitle Scenario.row1
                eq_refl eq_refl eq_refl) as H.
  destruct H as (Hu & Hd & Hn).
  destruct (Hu eq_refl) as (He & _).
  split; [rewrite He; reflexivity|]. split; [rewrite Hd; reflexivity|exact Hn].
Defined.

(** The status [done] through [updateTask] and through [patch]. *)
Lemma patch_skips_status_validation_witness :
  code (fst (updateTask isValidStatus_spec Sample.delivered "rec_0" Sample.mark_done
               Sample.w1)) = 400
  /\ code (fst (patch "rec_0" Sample.mark_done Sample.w1)) = 200
  /\ exists row,
       find (Xata.has_id "rec_0")
            (Task_table (snd (patch "rec_0" Sample.mark_done Sample.w1))) = Some row
       /\ status row = "done".
Proof.
  pose proof (patch_skips_status_validation isValidStatus_spec Sample.delivered
                Sample.w1 "rec_0" Sample.mark_done Sample.row0 "done"
                eq_refl eq_refl eq_refl eq_refl eq_refl) as H.
  destruct H as (Hu & _ & Hp & Hr).
  split; [exact Hu|]. split; [exact Hp|exact Hr].
Defined.

Lemma updateTask_stores_empty_status_witness :
  exists row,
    find (Xata.has_id "rec_0")
         (Task_table (snd (updateTask isValidStatus_spec Sample.delivered "rec_0"
                             Scenario.blank_status Sample.w1))) = Some row
    /\ status row = EmptyString.
Proof.
  apply (updateTask_stores_empty_status isValidStatus_spec Sample.delivered
           Sample.w1 "rec_0" Scenario.blank_status Sample.row0); reflexivity.
Defined.

Lemma patch_reports_500_after_commit_witness :
  code (fst (patch "rec_0" Sample.retitle Scenario.two_answers)) = 500
  /\ find (Xata.has_id "rec_0")
          (Task_table (snd (patch "rec_0" Sample.retitle Scenario.two_answers))) =
       Some Sample.row0_retitled.
Proof.
  pose proof (patch_reports_500_after_commit Scenario.two_answers "rec_0"
                Sample.retitle Sample.row0 eq_refl eq_refl) as H.
  destruct H as (He & Hf & _).
  split; [rewrite He; reflexivity|exact Hf].
Defined.

Lemma rejected_write_changes_nothing_witness :
  code (fst (updateTask isValidStatus_spec Sample.delivered "rec_0" Sample.retitle
               Scenario.one_answer)) = 500
  /\ code (fst (deleteTaskFromProject Sample.delivered "rec_0" Scenario.one_answer)) = 500
  /\ Task_table (snd (deleteTaskFromProject Sample.delivered "rec_0"
                        Scenario.one_answer)) = [Sample.row0].
Proof.
  pose proof (rejected_write_changes_nothing isValidStatus_spec Sample.delivered
                Scenario.one_answer "rec_0" Sample.retitle Sample.row0
                eq_refl eq_refl) as H.
  destruct H as (Hu & Hd & Ht & _).
  destruct (Hu eq_refl) as (Hc & _).
  split; [exact Hc|]. split; [exact Hd|exact Ht].
Defined.

Lemma unreachable_store_is_reported_witness :
  fetchTaskByid "rec_0" Scenario.unreachable =
    (Bare "TypeError: fetch failed", Scenario.unreachable)
  /\ fst (deleteTaskFromProject Sample.delivered "rec_0" Scenario.unreachable) =
       mkEnvelope 500 "Internal server error" (Text "TypeError: fetch failed").
Proof.
  pose proof (unreachable_store_is_reported isValidStatus_spec Sample.delivered
                Scenario.unreachable "rec_0" "completed" Sample.retitle eq_refl) as H.
  destruct H as (_ & Hi & _ & _ & _ & _ & Hd & _).
  split; [exact Hi|rewrite Hd; reflexivity].
Defined.

(** Updating or deleting [rec_0] leaves [rec_1] as it is. *)
Lemma mutators_leave_other_rows_witness :
  find (Xata.has_id "rec_1")
       (Task_table (snd (updateTask isValidStatus_spec Sample.delivered "rec_0"
                           Sample.retitle Scenario.two_rows))) = Some Scenario.row1
  /\ find (Xata.has_id "rec_1")
          (Task_table (snd (deleteTaskFromProject Sample.delivered "rec_0"
                              Scenario.two_rows))) = Some Scenario.row1.
Proof.
  pose proof (mutators_leave_other_rows isValidStatus_spec Sample.delivered
                Scenario.two_rows "rec_0" "rec_1" "completed" Sample.retitle
                eq_refl) as H.
  destruct H as (Hu & _ & _ & Hd).
  split; [rewrite Hu|rewrite Hd]; reflexivity.
Defined.

Lemma updateTaskStatus_keeps_statuses_valid_witness :
  isValidStatus_spec (status (with_status "completed" Sample.row0)) = true.
Proof.
  apply (updateTaskStatus_keeps_statuses_valid isValidStatus_spec Scenario.two_rows
           "rec_0" "completed").
  - intros t [<-|[<-|[]]]; reflexivity.
  - left. reflexivity.
Defined.

Lemma filtered_reads_are_exact_witness :
  code (fst (fetchTaskByUserId "user456" Scenario.two_rows)) = 200
  /\ exists l, details (fst (fetchTaskByUserId "user456" Scenario.two_rows)) = Rows l
               /\ In Sample.row0 l.
Proof.
  pose proof (filtered_reads_are_exact Scenario.two_rows "project123" "user456"
                eq_refl) as H.
  destruct H as (_ & Hc & l & Hl & Hin).
  split; [exact Hc|]. exists l. split; [exact Hl|].
  apply Hin. split; [left|]; reflexivity.
Defined.

Lemma createTask_then_fetchTaskByid_witness :
  exists row,
    details (fst (createTask isValidStatus_spec Js.toLowerCase EcmaDate.parse EcmaDate.toISO
                    Sample.report Sample.w0)) = Row row
    /\ fst (fetchTaskByid (xata_id row)
              (snd (createTask isValidStatus_spec Js.toLowerCase EcmaDate.parse EcmaDate.toISO
                      Sample.report Sample.w0))) =
         Enveloped (mkEnvelope 200 "task found!" (Row row)).
Proof.
  apply (createTask_then_fetchTaskByid isValidStatus_spec Js.toLowerCase EcmaDate.parse
           EcmaDate.toISO Sample.w0 Sample.report); reflexivity.
Defined.

Lemma createTask_then_fetchTasks_witness :
  exists row,
    details (fst (createTask isValidStatus_spec Js.toLowerCase EcmaDate.parse EcmaDate.toISO
                    Scenario.flight Scenario.two_rows)) = Row row
    /\ fst (fetchTasks
              (snd (createTask isValidStatus_spec Js.toLowerCase EcmaDate.parse EcmaDate.toISO
                      Scenario.flight Scenario.two_rows))) =
         Listed (row :: rev (Task_table Scenario.two_rows)).
Proof.
  apply (createTask_then_fetchTasks isValidStatus_spec Js.toLowerCase EcmaDate.parse
           EcmaDate.toISO Scenario.two_rows Scenario.flight); reflexivity.
Defined.

Lemma deleteTaskFromProject_then_missing_witness :
  code (fst (deleteTaskFromProject Sample.failing "rec_0"
               (snd (deleteTaskFromProject Sample.failing "rec_0" Sample.w1)))) = 404.
Proof.
  apply (deleteTaskFromProject_then_missing Sample.failing Sample.w1 "rec_0"
           Sample.row0); reflexivity.
Defined.

Lemma updateTaskStatus_then_fetchTaskByid_witness :
  fst (fetchTaskByid "rec_0"
         (snd (updateTaskStatus isValidStatus_spec "rec_0" "completed" Sample.w1))) =
    Enveloped (mkEnvelope 200 "task found!"
                 (Row (with_status "completed" Sample.row0))).
Proof.
  apply (updateTaskStatus_then_fetchTaskByid isValidStatus_spec Sample.w1 "rec_0"
           "completed" Sample.row0); reflexivity.
Defined.

(** A request without a name: the sample service, which would add a
    project, is not called. *)
Lemma create_rejects_invalid_request_witness :
  ProjectController.create string unit Scenario.createProject_sample
    Scenario.unnamed_project Sample.w0 =
    (ProjectController.mkResponse 400 (ProjectController.Errors ["name is required"]),
     Sample.w0).
Proof.
  apply (create_rejects_invalid_request string unit Scenario.createProject_sample
           Scenario.unnamed_project Sample.w0).
  discriminate.
Defined.
